(** * RFC 7807 problem details: a model of [httpproblem/problem.py]

    The module formats application errors as "problem details" mappings
    ([problem]), wraps them in an HTTP response envelope
    ([problem_http_response]) and offers an exception class ([Problem])
    that stores the raw fields and converts on demand.

    The development follows the source closely:
    - Python objects are the closed universe [value] (None, bool, int, str);
    - a Python [dict] is an insertion-ordered association list with text
      keys, written to with [dict_set] (the [d[k] = v] statement) and
      [dict_update];
    - exceptions are the [Raise] case of [result];
    - keyword-argument passing ([**kwargs], explicit keywords, defaults) is
      modelled by [call_keywords] and [bind_params], because two methods of
      the source rely on it;
    - the [headers] dictionary handed to [problem_http_response] is a
      reference into a [heap] of dictionary objects, so that in-place
      mutation and aliasing are visible;
    - the module globals [SERIALIZE_METHOD] and [WITH_TRACEBACK], and the
      text that [traceback.format_exc()] would return, form the [world]. *)

From Stdlib Require Import ZArith String Ascii List Bool Lia.
From stdpp Require Import base option list strings pretty.

(** ** Python values *)

Inductive value : Type :=
| VNone
| VBool (b : bool)
| VInt (z : Z)
| VStr (s : string).

#[global] Instance value_eq_dec : EqDecision value.
Proof. solve_decision. Defined.

Inductive exn : Type :=
| TypeError
| ValueError
| Raised (name : string).

#[global] Instance exn_eq_dec : EqDecision exn.
Proof. solve_decision. Defined.

Inductive result (A : Type) : Type :=
| Ok (a : A)
| Raise (e : exn).
Arguments Ok {A} a.
Arguments Raise {A} e.

#[global] Instance result_ret : MRet result := fun A a => Ok a.
#[global] Instance result_bind : MBind result :=
  fun A B f m => match m with Ok a => f a | Raise e => Raise e end.

(** [bool(v)]: the truth value tested by [if v:] and [not v]. *)
Definition truthy (v : value) : bool :=
  match v with
  | VNone => false
  | VBool b => b
  | VInt z => negb (z =? 0)%Z
  | VStr s => negb (String.eqb s EmptyString)
  end.

(** [v is None] *)
Definition is_none (v : value) : bool :=
  match v with VNone => true | _ => false end.

(** [a == b]; [bool] is a subclass of [int], so [True == 1]. *)
Definition py_eq (a b : value) : bool :=
  match a, b with
  | VNone, VNone => true
  | VBool x, VBool y => Bool.eqb x y
  | VBool x, VInt y | VInt y, VBool x => (Z.b2z x =? y)%Z
  | VInt x, VInt y => (x =? y)%Z
  | VStr x, VStr y => String.eqb x y
  | _, _ => false
  end.

(** [str(v)] *)
Definition py_str (v : value) : string :=
  match v with
  | VNone => "None"
  | VBool true => "True"
  | VBool false => "False"
  | VInt z => pretty z
  | VStr s => s
  end.

(** [s.lower()].  Only the letters A-Z are mapped.  No character outside
    ASCII lowers to a letter of ["content-type"], so the comparison made
    by [problem_http_response] is the one Python makes. *)
Definition lower_ascii (c : ascii) : ascii :=
  let n := nat_of_ascii c in
  if (65 <=? n)%nat && (n <=? 90)%nat then ascii_of_nat (n + 32) else c.

Fixpoint lower (s : string) : string :=
  match s with
  | EmptyString => EmptyString
  | String c s' => String (lower_ascii c) (lower s')
  end.

(** ** Dictionaries *)

Abbreviation pydict := (list (string * value)).

(** [d.get(k)] *)
Fixpoint dict_get (k : string) (d : pydict) : option value :=
  match d with
  | [] => None
  | (k', v) :: d' => if String.eqb k' k then Some v else dict_get k d'
  end.

(** [k in d] *)
Definition dict_has (k : string) (d : pydict) : bool :=
  match dict_get k d with Some _ => true | None => false end.

(** [d[k] = v]: an existing key keeps its position, a new key goes last. *)
Fixpoint dict_set (k : string) (v : value) (d : pydict) : pydict :=
  match d with
  | [] => [(k, v)]
  | (k', v') :: d' =>
      if String.eqb k' k then (k', v) :: d' else (k', v') :: dict_set k v d'
  end.

(** [d.update(other)] *)
Definition dict_update (d other : pydict) : pydict :=
  fold_left (fun acc kv => dict_set kv.1 kv.2 acc) other d.

(** [del d[k]] for a key that may be missing *)
Fixpoint dict_del (k : string) (d : pydict) : pydict :=
  match d with
  | [] => []
  | (k', v) :: d' =>
      if String.eqb k' k then dict_del k d' else (k', v) :: dict_del k d'
  end.

Definition dict_keys (d : pydict) : list string := d.*1.

(** A dictionary holds each key once. *)
Definition dict_wf (d : pydict) : Prop := NoDup (dict_keys d).

(** ** Keyword-argument passing *)

(** The keywords of a call [f(..., k1=v1, ..., **star)]: a key given twice
    is a [TypeError] ("got multiple values for keyword argument"). *)
Definition call_keywords (explicit star : pydict) : result pydict :=
  if existsb (fun kv => dict_has kv.1 explicit) star
  then Raise TypeError
  else Ok (explicit ++ star).

(** Binding for a signature [def f(p1=None, ..., pn=None, **kwargs)]:
    positional values fill the parameters from the left, a keyword that
    names a parameter fills it (a [TypeError] when it was already filled
    by position), a parameter left over takes its default [None], and the
    keywords that name no parameter become [kwargs]. *)
Fixpoint bind_params (names : list string) (args : list value) (kw : pydict)
  : result (list value * pydict) :=
  match names with
  | [] =>
      match args with
      | [] => Ok ([], kw)
      | _ :: _ => Raise TypeError
      end
  | n :: names' =>
      match args with
      | a :: args' =>
          if dict_has n kw then Raise TypeError
          else
            r ← bind_params names' args' kw;
            Ok (a :: r.1, r.2)
      | [] =>
          r ← bind_params names' [] (dict_del n kw);
          Ok (default VNone (dict_get n kw) :: r.1, r.2)
      end
  end.

(** ** The reason-phrase table

    [http.client.responses] ([httplib.responses] on Python 2) belongs to
    the standard library, and its contents vary with the Python version.
    The functions below take the table as a parameter; [http_responses] is
    the table of CPython 3.8, used for the closed examples. *)

Abbreviation table := (list (Z * string)).

Fixpoint table_get (k : Z) (t : table) : option string :=
  match t with
  | [] => None
  | (k', p) :: t' => if (k' =? k)%Z then Some p else table_get k t'
  end.

Definition http_responses : table :=
  [ (100, "Continue"); (101, "Switching Protocols"); (102, "Processing");
    (200, "OK"); (201, "Created"); (202, "Accepted");
    (203, "Non-Authoritative Information"); (204, "No Content");
    (205, "Reset Content"); (206, "Partial Content"); (207, "Multi-Status");
    (208, "Already Reported"); (226, "IM Used");
    (300, "Multiple Choices"); (301, "Moved Permanently"); (302, "Found");
    (303, "See Other"); (304, "Not Modified"); (305, "Use Proxy");
    (307, "Temporary Redirect"); (308, "Permanent Redirect");
    (400, "Bad Request"); (401, "Unauthorized"); (402, "Payment Required");
    (403, "Forbidden"); (404, "Not Found"); (405, "Method Not Allowed");
    (406, "Not Acceptable"); (407, "Proxy Authentication Required");
    (408, "Request Timeout"); (409, "Conflict"); (410, "Gone");
    (411, "Length Required"); (412, "Precondition Failed");
    (413, "Request Entity Too Large"); (414, "Request-URI Too Long");
    (415, "Unsupported Media Type"); (416, "Requested Range Not Satisfiable");
    (417, "Expectation Failed"); (421, "Misdirected Request");
    (422, "Unprocessable Entity"); (423, "Locked");
    (424, "Failed Dependency"); (426, "Upgrade Required");
    (428, "Precondition Required"); (429, "Too Many Requests");
    (431, "Request Header Fields Too Large");
    (451, "Unavailable For Legal Reasons");
    (500, "Internal Server Error"); (501, "Not Implemented");
    (502, "Bad Gateway"); (503, "Service Unavailable");
    (504, "Gateway Timeout"); (505, "HTTP Version Not Supported");
    (506, "Variant Also Negotiates"); (507, "Insufficient Storage");
    (508, "Loop Detected"); (510, "Not Extended");
    (511, "Network Authentication Required") ]%Z.

(** A reading of decimal text for the closed examples: an optional sign
    followed by digits.  (What [int] accepts beyond that, such as blanks
    around the number or underscores between digits, depends on the Python
    version; the functions below take the reading as a parameter.) *)
Definition digit_of (c : ascii) : option Z :=
  let n := nat_of_ascii c in
  if (48 <=? n)%nat && (n <=? 57)%nat then Some (Z.of_nat (n - 48)) else None.

Fixpoint digits_value (acc : Z) (s : string) : option Z :=
  match s with
  | EmptyString => Some acc
  | String c s' =>
      match digit_of c with
      | Some d => digits_value (10 * acc + d)%Z s'
      | None => None
      end
  end.

Definition decimal_int (s : string) : option Z :=
  match s with
  | EmptyString => None
  | String "-" (String _ _ as s') => Z.opp <$> digits_value 0 s'
  | String "+" (String _ _ as s') => digits_value 0 s'
  | _ => digits_value 0 s
  end.

(** ** Module state and object store *)

(** The module globals, and the text [traceback.format_exc()] returns at
    the moment of a call.  The serializer is any callable from the body
    mapping to a value; it may raise. *)
Record world : Type := {
  SERIALIZE_METHOD : pydict -> result value;
  WITH_TRACEBACK : bool;
  format_exc : string
}.

Definition set_serialize_function (method : pydict -> result value)
  (w : world) : world :=
  {| SERIALIZE_METHOD := method;
     WITH_TRACEBACK := WITH_TRACEBACK w;
     format_exc := format_exc w |}.

Definition activate_traceback (w : world) : world :=
  {| SERIALIZE_METHOD := SERIALIZE_METHOD w;
     WITH_TRACEBACK := true;
     format_exc := format_exc w |}.

Definition deactivate_traceback (w : world) : world :=
  {| SERIALIZE_METHOD := SERIALIZE_METHOD w;
     WITH_TRACEBACK := false;
     format_exc := format_exc w |}.

(** Dictionary objects that callers hold references to.  A reference is an
    index into the store; allocation appends.  References handed out by
    Python are never dangling, so the default of [heap_get] is not read on
    a store that contains the reference. *)
Abbreviation loc := nat.
Abbreviation heap := (list pydict).

Definition heap_get (l : loc) (h : heap) : pydict := default [] (h !! l).

Definition heap_set (l : loc) (d : pydict) (h : heap) : heap := <[l := d]> h.

Definition heap_alloc (d : pydict) (h : heap) : loc * heap :=
  (length h, h ++ [d]).

(** The response envelope, a dictionary with the three fixed keys
    ['statusCode'], ['body'] and ['headers']; the last holds a reference. *)
Record envelope : Type := {
  statusCode : value;
  body : value;
  headers : loc
}.

(** The exception object: the attributes set by [Problem.__init__]. *)
Record Problem : Type := {
  status : value;
  title : value;
  detail : value;
  type : value;
  instance : value;
  kwargs : pydict
}.

Definition problem_params : list string :=
  ["status"; "title"; "detail"; "type"; "instance"].

(** A call of the constructor with positional values [args] and keywords [kw]. *)
Definition __init__ (args : list value) (kw : pydict) : result Problem :=
  r ← bind_params problem_params args kw;
  match r.1 with
  | [status; title; detail; type; instance] =>
      Ok {| status := status; title := title; detail := detail;
            type := type; instance := instance; kwargs := r.2 |}
  | _ => Raise TypeError
  end.

(** [any(header.lower() == 'content-type' for header in d)] *)
Definition has_content_type_key (d : pydict) : bool :=
  existsb (fun header => String.eqb (lower header) "content-type")
          (dict_keys d).

Section Normalizer.

(** The reason-phrase table [httplib.responses], the reading of text by
    [int], and [repr] of text. *)
Variable responses : table.
Variable int_of_str : string -> option Z.
Variable repr_str : string -> string.

(** [int(v)] *)
Definition py_int (v : value) : result Z :=
  match v with
  | VNone => Raise TypeError
  | VBool b => Ok (Z.b2z b)
  | VInt z => Ok z
  | VStr s =>
      match int_of_str s with
      | Some z => Ok z
      | None => Raise ValueError
      end
  end.

(** [httplib.responses.get(v)]: the table has integer keys, a bool hashes
    and compares as its integer, text is never a key. *)
Definition responses_get (v : value) : option string :=
  match v with
  | VInt z => table_get z responses
  | VBool b => table_get (Z.b2z b) responses
  | _ => None
  end.

(** [problem(status, title, detail, type, instance, **kwargs)], with the
    parameters already bound. *)
Definition problem (status title detail type instance : value)
  (kwargs : pydict) : result pydict :=
  let problem_dict : pydict := [] in
  problem_dict ←
    (if truthy status then
       n ← py_int status;
       let problem_dict := dict_set "status" (VInt n) problem_dict in
       if negb (truthy title) || py_eq title (VStr "about:blank") then
         match responses_get status with
         | Some phrase => Ok (dict_set "title" (VStr phrase) problem_dict)
         | None => Ok problem_dict
         end
       else Ok problem_dict
     else Ok problem_dict);
  let problem_dict :=
    if truthy title
    then dict_set "title" (VStr (py_str title)) problem_dict
    else problem_dict in
  let problem_dict :=
    if truthy detail
    then dict_set "detail" (VStr (py_str detail)) problem_dict
    else problem_dict in
  let problem_dict :=
    if truthy type
    then dict_set "type" (VStr (py_str type)) problem_dict
    else problem_dict in
  let problem_dict :=
    if truthy instance
    then dict_set "instance" (VStr (py_str instance)) problem_dict
    else problem_dict in
  Ok (dict_update problem_dict kwargs).

(** A call of [problem] with positional values [args] and keywords [kw]. *)
Definition call_problem (args : list value) (kw : pydict) : result pydict :=
  r ← bind_params problem_params args kw;
  match r.1 with
  | [status; title; detail; type; instance] =>
      problem status title detail type instance r.2
  | _ => Raise TypeError
  end.

(** [Problem.to_dict(self, with_traceback=None)] *)
Definition to_dict (self : Problem) (with_traceback : value) (w : world)
  : result pydict :=
  let with_traceback :=
    if is_none with_traceback then VBool (WITH_TRACEBACK w)
    else with_traceback in
  if truthy with_traceback then
    kw ← call_keywords [("traceback", VStr (format_exc w))] (kwargs self);
    call_problem
      [status self; title self; detail self; type self; instance self] kw
  else
    kw ← call_keywords [] (kwargs self);
    call_problem
      [status self; title self; detail self; type self; instance self] kw.

(** [repr(v)] and [str(d)] for a dictionary [d]. *)
Definition py_repr (v : value) : string :=
  match v with
  | VStr s => repr_str s
  | _ => py_str v
  end.

Fixpoint str_items (d : pydict) : string :=
  match d with
  | [] => EmptyString
  | [(k, v)] => repr_str k +:+ ": " +:+ py_repr v
  | (k, v) :: d' => repr_str k +:+ ": " +:+ py_repr v +:+ ", " +:+ str_items d'
  end.

Definition str_dict (d : pydict) : string := "{" +:+ str_items d +:+ "}".

(** [Problem.__str__] and [Problem.__repr__] *)
Definition __str__ (self : Problem) (w : world) : result string :=
  d ← to_dict self (VBool false) w;
  Ok (str_dict d).

Definition __repr__ (self : Problem) (w : world) : result string :=
  __str__ self w.

(** [problem_http_response(status, title, detail, type, instance,
    headers, **kwargs)] with the parameters already bound.  [headers] is
    [None] or a reference to a dictionary in the store; the store is
    threaded through, and an exception leaves it as it was at the raise. *)
Definition problem_http_response (status title detail type instance : value)
  (headers : option loc) (kwargs : pydict) (w : world) (h : heap)
  : result envelope * heap :=
  match
    kw ← call_keywords [] kwargs;
    call_problem [status; title; detail; type; instance] kw
  with
  | Raise e => (Raise e, h)
  | Ok body =>
      let '(headers, h) :=
        match headers with
        | Some l =>
            match heap_get l h with
            | [] => heap_alloc [] h
            | _ :: _ => (l, h)
            end
        | None => heap_alloc [] h
        end in
      let has_content_type :=
        fold_left
          (fun has_content_type header =>
             if String.eqb (lower header) "content-type" then true
             else has_content_type)
          (dict_keys (heap_get headers h)) false in
      let h :=
        if negb has_content_type
        then heap_set headers
               (dict_set "Content-Type" (VStr "application/problem+json")
                         (heap_get headers h)) h
        else h in
      match SERIALIZE_METHOD w body with
      | Raise e => (Raise e, h)
      | Ok text =>
          (Ok {| statusCode := status; body := text; headers := headers |}, h)
      end
  end.

End Normalizer.

(** ** The envelope of a [Problem] *)

Section Conversion.

Variable responses : table.
Variable int_of_str : string -> option Z.

Definition problem_http_response_params : list string :=
  ["status"; "title"; "detail"; "type"; "instance"; "headers"].

(** A call of [problem_http_response] with positional values [args] and
    keywords [kw].  The keyword [headers], when given, is a value of the
    universe and so no dictionary: a falsy one is replaced by a new
    dictionary like [None]; a truthy one is a bool or an int, which the
    loop over the header names cannot iterate, or text, whose characters
    are no spelling of "content-type" and which refuses the item
    assignment.  Each is a [TypeError], raised after the body was
    normalized. *)
Definition call_problem_http_response (args : list value) (kw : pydict)
  (w : world) (h : heap) : result envelope * heap :=
  match bind_params problem_http_response_params args kw with
  | Raise e => (Raise e, h)
  | Ok r =>
      match r.1 with
      | [status; title; detail; type; instance; headers] =>
          if truthy headers then
            match
              kw' ← call_keywords [] r.2;
              call_problem responses int_of_str
                [status; title; detail; type; instance] kw'
            with
            | Raise e => (Raise e, h)
            | Ok _ => (Raise TypeError, h)
            end
          else
            problem_http_response responses int_of_str
              status title detail type instance None r.2 w h
      | _ => (Raise TypeError, h)
      end
  end.

(** [Problem.to_http_response(self, with_traceback=None)] *)
Definition to_http_response (self : Problem) (with_traceback : value)
  (w : world) (h : heap) : result envelope * heap :=
  let with_traceback :=
    if is_none with_traceback then VBool (WITH_TRACEBACK w)
    else with_traceback in
  if truthy with_traceback then
    match
      call_keywords [("traceback", VStr (format_exc w))] (kwargs self)
    with
    | Raise e => (Raise e, h)
    | Ok kw =>
        call_problem_http_response
          [status self; title self; detail self; type self; instance self]
          kw w h
    end
  else
    match call_keywords [] (kwargs self) with
    | Raise e => (Raise e, h)
    | Ok kw =>
        call_problem_http_response
          [status self; title self; detail self; type self; instance self]
          kw w h
    end.

End Conversion.

(** ** Properties as first worded, for the inputs that refute them *)

(** Every standard field supplied with a falsy value is missing from the
    result, and no key of the result maps to [None]. *)
Definition falsy_fields_absent (fields out : pydict) : Prop :=
  forall name v,
    In (name, v) fields -> truthy v = false -> dict_get name out = None.

Definition no_null_value (out : pydict) : Prop :=
  forall k, dict_get k out <> Some VNone.

(** The returned headers hold the default content type exactly when no
    supplied header name is a spelling of "content-type". *)
Definition default_entry_iff_no_content_type (supplied returned : pydict)
  : Prop :=
  dict_get "Content-Type" returned = Some (VStr "application/problem+json")
  <-> has_content_type_key supplied = false.

(** The headers a caller supplied: none, or the dictionary referred to. *)
Definition supplied_headers (headers : option loc) (h : heap) : pydict :=
  match headers with
  | Some l => heap_get l h
  | None => []
  end.

(** ** The layout of the standard fields

    Used to state what [problem] builds before the extensions are merged:
    a field contributes one text entry or nothing. *)

Definition entry (k : string) (o : option string) : pydict :=
  match o with
  | Some s => [(k, VStr s)]
  | None => []
  end.

Definition text_of (v : value) : option string :=
  if truthy v then Some (py_str v) else None.

Definition derived_title (responses : table) (status title : value)
  : option string :=
  if truthy title then Some (py_str title)
  else if truthy status then responses_get responses status
  else None.

(** The standard fields in the order [problem] writes them, for a status
    whose integer form is [n]. *)
Definition standard_fields (responses : table) (n : Z)
  (status title detail type instance : value) : pydict :=
  (if truthy status then [("status", VInt n)] else [])
    ++ entry "title" (derived_title responses status title)
    ++ entry "detail" (text_of detail)
    ++ entry "type" (text_of type)
    ++ entry "instance" (text_of instance).

(** ** Closed instances for the examples *)

(** A quoting function standing for [repr] on text without quotes or
    escapes, and a world whose serializer renders the body with it. *)
Definition simple_repr (s : string) : string := "'" +:+ s +:+ "'".

Definition sample_world : world :=
  {| SERIALIZE_METHOD := fun d => Ok (VStr (str_dict simple_repr d));
     WITH_TRACEBACK := false;
     format_exc := "NoneType: None" |}.

(** ** Dictionary lemmas *)

Ltac eqb_cases :=
  repeat match goal with
    | |- context [String.eqb ?a ?b] =>
        destruct (String.eqb_spec a b); subst; try congruence
    | H : context [String.eqb ?a ?b] |- _ =>
        destruct (String.eqb_spec a b); subst; try congruence
    end.

Lemma dict_get_set (k k' : string) (v : value) (d : pydict) :
  dict_get k' (dict_set k v d) =
  if String.eqb k k' then Some v else dict_get k' d.
Proof.
  induction d as [|[k0 v0] d IH]; simpl.
  - reflexivity.
  - destruct (String.eqb_spec k0 k); subst; simpl.
    + destruct (String.eqb_spec k k'); reflexivity.
    + rewrite IH. destruct (String.eqb_spec k0 k'); subst; [|reflexivity].
      destruct (String.eqb_spec k k'); congruence.
Qed.

Lemma dict_get_None (k : string) (d : pydict) :
  dict_get k d = None <-> ~ In k (dict_keys d).
Proof.
  induction d as [|[k0 v0] d IH]; simpl.
  - tauto.
  - destruct (String.eqb_spec k0 k); subst.
    + split; [discriminate | intros H; exfalso; apply H; now left].
    + rewrite IH. tauto.
Qed.

Lemma dict_get_In (k : string) (v : value) (d : pydict) :
  dict_get k d = Some v -> In (k, v) d.
Proof.
  induction d as [|[k0 v0] d IH]; simpl; [discriminate|].
  destruct (String.eqb_spec k0 k); subst.
  - intros [= ->]. now left.
  - intros H. right. auto.
Qed.

Lemma dict_has_In (k : string) (d : pydict) :
  dict_has k d = true <-> In k (dict_keys d).
Proof.
  unfold dict_has. pose proof (dict_get_None k d) as H.
  destruct (dict_get k d).
  - split; [|reflexivity]. intros _.
    destruct (in_dec string_dec k (dict_keys d)) as [Hin|Hni]; [exact Hin|].
    apply H in Hni. discriminate.
  - split; [discriminate|]. intros Hin. exfalso. now apply H.
Qed.

Lemma dict_get_app (k : string) (d1 d2 : pydict) :
  dict_get k (d1 ++ d2) =
  match dict_get k d1 with Some v => Some v | None => dict_get k d2 end.
Proof.
  induction d1 as [|[k0 v0] d1 IH]; simpl; [reflexivity|].
  destruct (String.eqb k0 k); [reflexivity | exact IH].
Qed.

Lemma dict_get_del (n k : string) (d : pydict) :
  dict_get k (dict_del n d) = if String.eqb n k then None else dict_get k d.
Proof.
  induction d as [|[k0 v0] d IH]; simpl.
  - now destruct (String.eqb n k).
  - destruct (String.eqb_spec k0 n); subst; simpl.
    + rewrite IH. destruct (String.eqb_spec n k); reflexivity.
    + rewrite IH. destruct (String.eqb_spec k0 k); subst; [|reflexivity].
      destruct (String.eqb_spec n k); congruence.
Qed.

Lemma dict_keys_del (n k : string) (d : pydict) :
  In k (dict_keys (dict_del n d)) -> In k (dict_keys d).
Proof.
  induction d as [|[k0 v0] d IH]; simpl; [tauto|].
  destruct (String.eqb k0 n); simpl; tauto.
Qed.

Lemma dict_wf_del (n : string) (d : pydict) :
  dict_wf d -> dict_wf (dict_del n d).
Proof.
  unfold dict_wf. induction d as [|[k0 v0] d IH]; simpl; [auto|].
  rewrite !NoDup_cons, !list_elem_of_In. intros [Hni Hnd].
  destruct (String.eqb k0 n); simpl; [auto|].
  apply NoDup_cons. rewrite list_elem_of_In. split; [|auto].
  intros Hin. apply Hni. eapply dict_keys_del, Hin.
Qed.

Lemma dict_get_update (k : string) (d other : pydict) :
  dict_wf other ->
  dict_get k (dict_update d other) =
  match dict_get k other with Some v => Some v | None => dict_get k d end.
Proof.
  unfold dict_update, dict_wf. revert d.
  induction other as [|[k0 v0] o IH]; simpl; intros d Hwf; [reflexivity|].
  apply NoDup_cons in Hwf as [Hni Hnd]. rewrite list_elem_of_In in Hni.
  rewrite (IH _ Hnd), dict_get_set.
  destruct (String.eqb_spec k0 k); subst; [|reflexivity].
  apply dict_get_None in Hni. unfold dict_keys in Hni. now rewrite Hni.
Qed.

(** Without the uniqueness of keys, [update] still brings every key of
    the other dictionary and keeps the rest. *)
Lemma dict_get_update_ne (k : string) (d other : pydict) :
  dict_get k other = None ->
  dict_get k (dict_update d other) = dict_get k d.
Proof.
  unfold dict_update. revert d.
  induction other as [|[k0 v0] o IH]; simpl; intros d Hk; [reflexivity|].
  destruct (String.eqb_spec k0 k); [discriminate|].
  rewrite (IH _ Hk), dict_get_set.
  destruct (String.eqb_spec k0 k); congruence.
Qed.

(** ** Keyword binding lemmas *)

Lemma call_keywords_nil (star : pydict) : call_keywords [] star = Ok star.
Proof.
  unfold call_keywords.
  replace (existsb (fun kv => dict_has kv.1 []) star) with false;
    [reflexivity|].
  induction star as [|kv star IH]; simpl; [reflexivity | exact IH].
Qed.

Lemma existsb_dict_has_singleton (n : string) (v : value) (star : pydict) :
  existsb (fun kv => dict_has kv.1 [(n, v)]) star = dict_has n star.
Proof.
  induction star as [|[k0 v0] star IH]; simpl; [reflexivity|].
  rewrite IH. unfold dict_has. simpl.
  destruct (String.eqb_spec n k0); subst.
  - now rewrite String.eqb_refl.
  - destruct (String.eqb_spec k0 n); [congruence | reflexivity].
Qed.

Lemma call_keywords_singleton (n : string) (v : value) (star : pydict) :
  call_keywords [(n, v)] star =
  if dict_has n star then Raise TypeError else Ok ((n, v) :: star).
Proof.
  unfold call_keywords. now rewrite existsb_dict_has_singleton.
Qed.

(** What is left for [**kwargs] names no parameter and agrees with the
    keywords of the call on every other key. *)
Lemma bind_params_rest (names : list string) :
  forall (args : list value) (kw : pydict) (r : list value * pydict),
    bind_params names args kw = Ok r ->
    forall k,
      (In k names -> dict_get k r.2 = None) /\
      (~ In k names -> dict_get k r.2 = dict_get k kw).
Proof.
  induction names as [|n names IH]; intros args kw r Hb k; simpl in Hb.
  - destruct args; [|discriminate]. injection Hb as <-. simpl. tauto.
  - destruct args as [|a args].
    + destruct (bind_params names [] (dict_del n kw)) as [r'|] eqn:Hr;
        [|discriminate].
      injection Hb as <-. simpl.
      destruct (IH _ _ _ Hr k) as [Hin Hout].
      rewrite dict_get_del in Hout.
      destruct (in_dec string_dec k names) as [Hk|Hk].
      * split; [auto | intros Hno; exfalso; apply Hno; now right].
      * specialize (Hout Hk).
        destruct (String.eqb_spec n k); subst.
        -- split; [auto | intros Hno; exfalso; apply Hno; now left].
        -- split; [intros [?|?]; congruence | auto].
    + destruct (dict_has n kw) eqn:Hn; [discriminate|].
      destruct (bind_params names args kw) as [r'|] eqn:Hr; [|discriminate].
      injection Hb as <-. simpl.
      destruct (IH _ _ _ Hr k) as [Hin Hout].
      destruct (in_dec string_dec k names) as [Hk|Hk].
      * split; [auto | intros Hno; exfalso; apply Hno; now right].
      * specialize (Hout Hk).
        destruct (String.eqb_spec n k); subst.
        -- split; [|intros Hno; exfalso; apply Hno; now left].
           intros _. rewrite Hout. unfold dict_has in Hn.
           now destruct (dict_get k kw).
        -- split; [intros [?|?]; congruence | auto].
Qed.

Lemma bind_params_keys (names : list string) :
  forall (args : list value) (kw : pydict) (r : list value * pydict),
    bind_params names args kw = Ok r ->
    dict_wf kw -> dict_wf r.2.
Proof.
  induction names as [|n names IH]; intros args kw r Hb Hwf; simpl in Hb.
  - destruct args; [|discriminate]. now injection Hb as <-.
  - destruct args as [|a args].
    + destruct (bind_params names [] (dict_del n kw)) as [r'|] eqn:Hr;
        [|discriminate].
      injection Hb as <-. simpl. eapply IH; [exact Hr|].
      now apply dict_wf_del.
    + destruct (dict_has n kw); [discriminate|].
      destruct (bind_params names args kw) as [r'|] eqn:Hr; [|discriminate].
      injection Hb as <-. simpl. eapply IH; eauto.
Qed.

(** As many positional values as parameters, and keywords that name none
    of them: every parameter takes its positional value. *)
Lemma bind_params_positional (names : list string) :
  forall (args : list value) (kw : pydict),
    length args = length names ->
    (forall n, In n names -> dict_get n kw = None) ->
    bind_params names args kw = Ok (args, kw).
Proof.
  induction names as [|n names IH]; intros [|a args] kw Hlen Hfree;
    simpl in *; try discriminate; [reflexivity|].
  unfold dict_has. rewrite (Hfree n) by now left.
  rewrite IH; [reflexivity | lia | auto].
Qed.

(** The extensions stored by the constructor. *)
Lemma init_kwargs (args : list value) (kw : pydict) (self : Problem) :
  __init__ args kw = Ok self ->
  (forall n, In n problem_params -> dict_get n (kwargs self) = None) /\
  (forall k, ~ In k problem_params ->
             dict_get k (kwargs self) = dict_get k kw) /\
  (dict_wf kw -> dict_wf (kwargs self)).
Proof.
  unfold __init__. intros H.
  destruct (bind_params problem_params args kw) as [r|] eqn:Hr;
    [|discriminate].
  simpl in H.
  destruct r as [vs rest]. simpl in H.
  destruct vs as [|? [|? [|? [|? [|? [|? ?]]]]]]; try discriminate.
  injection H as <-. simpl.
  pose proof (bind_params_rest _ _ _ _ Hr) as Hrest. simpl in Hrest.
  repeat split.
  - intros n Hn. now apply Hrest.
  - intros k Hk. now apply Hrest.
  - intros Hwf. exact (bind_params_keys _ _ _ _ Hr Hwf).
Qed.

(** ** What [problem] builds *)

Section NormalizerFacts.

Variable responses : table.
Variable int_of_str : string -> option Z.
Variable repr_str : string -> string.

(** The standard fields come first, in the order status, title, detail,
    type, instance, each present only when it has a value; the extensions
    are merged in last. *)
Lemma problem_shape (status title detail type instance : value)
  (kwargs : pydict) :
  problem responses int_of_str status title detail type instance kwargs =
  match (if truthy status then py_int int_of_str status else Ok 0%Z) with
  | Raise e => Raise e
  | Ok n =>
      Ok (dict_update
            ((if truthy status then [("status", VInt n)] else [])
               ++ entry "title" (derived_title responses status title)
               ++ entry "detail" (text_of detail)
               ++ entry "type" (text_of type)
               ++ entry "instance" (text_of instance))
            kwargs)
  end.
Proof.
  unfold problem, derived_title, text_of.
  destruct (truthy status); simpl.
  - destruct (py_int int_of_str status) as [n|e]; simpl; [|reflexivity].
    destruct (truthy title); simpl.
    + destruct (py_eq title (VStr "about:blank")),
        (responses_get responses status),
        (truthy detail), (truthy type), (truthy instance); reflexivity.
    + destruct (responses_get responses status),
        (truthy detail), (truthy type), (truthy instance); reflexivity.
  - destruct (truthy title), (truthy detail), (truthy type),
      (truthy instance); reflexivity.
Qed.

Lemma dict_get_entry (k k' : string) (o : option string) :
  dict_get k' (entry k o) = if String.eqb k k' then VStr <$> o else None.
Proof.
  destruct o; simpl; now destruct (String.eqb k k').
Qed.

(** Lookup in the standard fields, key by key. *)
Lemma standard_fields_get (st : pydict) (ti de ty ins : option string)
  (k : string) :
  (forall k', dict_get k' st <> None -> k' = "status") ->
  dict_get k (st ++ entry "title" ti ++ entry "detail" de
                 ++ entry "type" ty ++ entry "instance" ins) =
  if String.eqb "status" k then dict_get k st
  else if String.eqb "title" k then VStr <$> ti
  else if String.eqb "detail" k then VStr <$> de
  else if String.eqb "type" k then VStr <$> ty
  else if String.eqb "instance" k then VStr <$> ins
  else None.
Proof.
  intros Hst. rewrite !dict_get_app, !dict_get_entry.
  destruct (String.eqb_spec "status" k) as [<-|Hk].
  - simpl. now destruct (dict_get "status" st).
  - destruct (dict_get k st) eqn:Hg.
    + exfalso. apply Hk. symmetry. apply Hst. now rewrite Hg.
    + destruct (String.eqb_spec "title" k) as [<-|];
        [simpl; now destruct ti|].
      destruct (String.eqb_spec "detail" k) as [<-|];
        [simpl; now destruct de|].
      destruct (String.eqb_spec "type" k) as [<-|];
        [simpl; now destruct ty|].
      destruct (String.eqb_spec "instance" k) as [<-|];
        [simpl; now destruct ins|].
      reflexivity.
Qed.

Lemma status_entry_only (b : bool) (n : Z) (k : string) :
  dict_get k (if b then [("status", VInt n)] else []) <> None ->
  k = "status".
Proof.
  destruct b; [|simpl; congruence].
  unfold dict_get. destruct (String.eqb_spec "status" k); congruence.
Qed.

(** Lookup in the result of [problem]: an extension key gives the
    extension's value. *)
Lemma problem_get_ext (status title detail type instance : value)
  (kwargs out : pydict) (k : string) (v : value) :
  dict_wf kwargs ->
  problem responses int_of_str status title detail type instance kwargs
    = Ok out ->
  dict_get k kwargs = Some v ->
  dict_get k out = Some v.
Proof.
  intros Hwf Hp Hk. rewrite problem_shape in Hp.
  destruct (if truthy status then py_int int_of_str status else Ok 0%Z);
    [|discriminate].
  injection Hp as <-. now rewrite dict_get_update, Hk.
Qed.

(** Any other key gives what the standard fields hold. *)
Lemma problem_get_std (status title detail type instance : value)
  (kwargs out : pydict) (k : string) :
  problem responses int_of_str status title detail type instance kwargs
    = Ok out ->
  dict_get k kwargs = None ->
  dict_get k out =
  if String.eqb "status" k then
    (if truthy status then
       match py_int int_of_str status with
       | Ok n => Some (VInt n)
       | Raise _ => None
       end
     else None)
  else if String.eqb "title" k then
    VStr <$> derived_title responses status title
  else if String.eqb "detail" k then VStr <$> text_of detail
  else if String.eqb "type" k then VStr <$> text_of type
  else if String.eqb "instance" k then VStr <$> text_of instance
  else None.
Proof.
  intros Hp Hk. rewrite problem_shape in Hp.
  destruct (truthy status) eqn:Hs.
  - destruct (py_int int_of_str status) as [n|e]; [|discriminate].
    injection Hp as <-. rewrite (dict_get_update_ne _ _ _ Hk).
    etransitivity;
      [exact (standard_fields_get [("status", VInt n)] _ _ _ _ k
                (status_entry_only true n))|].
    destruct (String.eqb_spec "status" k) as [<-|]; reflexivity.
  - injection Hp as <-. rewrite (dict_get_update_ne _ _ _ Hk).
    etransitivity;
      [exact (standard_fields_get [] _ _ _ _ k
                (status_entry_only false 0))|].
    destruct (String.eqb_spec "status" k) as [<-|]; reflexivity.
Qed.

(** A call with the five fields by position and keywords that name none
    of them runs the body on those keywords. *)
Lemma call_problem_positional (status title detail type instance : value)
  (kw : pydict) :
  (forall n, In n problem_params -> dict_get n kw = None) ->
  call_problem responses int_of_str
    [status; title; detail; type; instance] kw =
  problem responses int_of_str status title detail type instance kw.
Proof.
  intros Hfree. unfold call_problem.
  rewrite bind_params_positional; [reflexivity | reflexivity | exact Hfree].
Qed.

(** With a keyword that names a field already given by position, the
    call is a [TypeError]. *)
Lemma call_problem_clash (args : list value) (kw : pydict) :
  length args = 5%nat ->
  (exists n, In n problem_params /\ dict_get n kw <> None) ->
  call_problem responses int_of_str args kw = Raise TypeError.
Proof.
  intros Hlen [n [Hn Hk]]. unfold call_problem.
  destruct (bind_params problem_params args kw) as [r|e] eqn:Hb.
  - exfalso.
    destruct args as [|a0 [|a1 [|a2 [|a3 [|a4 [|? ?]]]]]]; try discriminate.
    unfold problem_params in Hb. simpl in Hb. unfold dict_has in Hb.
    simpl in Hn.
    destruct Hn as [<-|[<-|[<-|[<-|[<-|[]]]]]];
      repeat match type of Hb with
        | context [dict_get ?x kw] =>
            destruct (dict_get x kw); try discriminate; try congruence
        end.
  - simpl.
    destruct args as [|a0 [|a1 [|a2 [|a3 [|a4 [|? ?]]]]]]; try discriminate.
    unfold problem_params in Hb. simpl in Hb. unfold dict_has in Hb.
    repeat match type of Hb with
      | context [dict_get ?x kw] =>
          destruct (dict_get x kw); simpl in Hb; try congruence
      end.
Qed.

(** ** Field normalization *)

(** C1, as amended.  When [problem] returns: a status, detail, type or
    instance supplied with a falsy value is absent from the result; a
    title supplied with a falsy value is absent unless the status is
    truthy and a key of the reason table, in which case the title is the
    reason phrase; and a key maps to [None] only if it is an extension
    supplied with the value [None].  (The extensions name no standard
    field, as Python's binding of keywords ensures.) *)
Theorem problem_falsy_fields (status title detail type instance : value)
  (kwargs out : pydict) :
  dict_wf kwargs ->
  (forall n, In n problem_params -> dict_get n kwargs = None) ->
  problem responses int_of_str status title detail type instance kwargs
    = Ok out ->
  (truthy status = false -> dict_get "status" out = None) /\
  (truthy detail = false -> dict_get "detail" out = None) /\
  (truthy type = false -> dict_get "type" out = None) /\
  (truthy instance = false -> dict_get "instance" out = None) /\
  (truthy title = false ->
   dict_get "title" out =
   if truthy status then VStr <$> responses_get responses status
   else None) /\
  (forall k, dict_get k out = Some VNone -> dict_get k kwargs = Some VNone).
Proof.
  intros Hwf Hfree Hp.
  assert (Hstd : forall n, In n problem_params ->
            dict_get n out = _) by
    (intros n Hn; exact (problem_get_std _ _ _ _ _ _ _ n Hp (Hfree n Hn))).
  repeat split.
  - intros Hf. rewrite (Hstd "status") by (simpl; tauto).
    simpl. now rewrite Hf.
  - intros Hf. rewrite (Hstd "detail") by (simpl; tauto).
    simpl. unfold text_of. now rewrite Hf.
  - intros Hf. rewrite (Hstd "type") by (simpl; tauto).
    simpl. unfold text_of. now rewrite Hf.
  - intros Hf. rewrite (Hstd "instance") by (simpl; tauto).
    simpl. unfold text_of. now rewrite Hf.
  - intros Hf. rewrite (Hstd "title") by (simpl; tauto).
    simpl. unfold derived_title. rewrite Hf. now destruct (truthy status).
  - intros k Hk. destruct (dict_get k kwargs) as [v|] eqn:Hkw.
    + rewrite (problem_get_ext _ _ _ _ _ _ _ _ _ Hwf Hp Hkw) in Hk.
      exact Hk.
    + exfalso. rewrite (problem_get_std _ _ _ _ _ _ _ _ Hp Hkw) in Hk.
      destruct (truthy status), (py_int int_of_str status),
        (derived_title responses status title), (text_of detail),
        (text_of type), (text_of instance);
        repeat match type of Hk with
          | context [String.eqb ?a ?b] => destruct (String.eqb a b)
          end; simpl in Hk; congruence.
Qed.

(** C2.  A supplied title ["about:blank"] is not superseded by the reason
    phrase: the phrase is written first and the truthy title is then
    written over it.  With no title the phrase stays. *)
Theorem problem_about_blank_title :
  problem http_responses decimal_int
    (VInt 404) (VStr "about:blank") VNone VNone VNone []
  = Ok [("status", VInt 404); ("title", VStr "about:blank")]
  /\
  problem http_responses decimal_int (VInt 404) VNone VNone VNone VNone []
  = Ok [("status", VInt 404); ("title", VStr "Not Found")].
Proof. split; reflexivity. Qed.

(** The defect for every table and status: a recognized status together
    with the title ["about:blank"] keeps that title. *)
Lemma problem_about_blank_kept (status detail type instance : value)
  (out : pydict) :
  problem responses int_of_str
    status (VStr "about:blank") detail type instance [] = Ok out ->
  dict_get "title" out = Some (VStr "about:blank").
Proof.
  intros Hp. now rewrite (problem_get_std _ _ _ _ _ _ _ "title" Hp eq_refl).
Qed.

(** The part of the derivation that works: with a falsy title and a
    truthy status, the title is the reason phrase of a status in the table
    and is missing for any other status. *)
Lemma problem_title_derived (status title detail type instance : value)
  (out : pydict) :
  truthy status = true ->
  truthy title = false ->
  problem responses int_of_str status title detail type instance [] = Ok out ->
  dict_get "title" out = VStr <$> responses_get responses status.
Proof.
  intros Hs Ht Hp.
  rewrite (problem_get_std _ _ _ _ _ _ _ "title" Hp eq_refl).
  simpl. unfold derived_title. now rewrite Ht, Hs.
Qed.




(** ** The exception class *)

(** The fields of a constructed [Problem] go through the call unchanged:
    its extensions name no parameter of [problem]. *)
Lemma to_dict_policy_off (args : list value) (kw : pydict) (self : Problem)
  (with_traceback : value) (w : world) :
  __init__ args kw = Ok self ->
  truthy (if is_none with_traceback then VBool (WITH_TRACEBACK w)
          else with_traceback) = false ->
  to_dict responses int_of_str self with_traceback w =
  problem responses int_of_str
    (status self) (title self) (detail self) (type self) (instance self)
    (kwargs self).
Proof.
  intros Hinit Hoff. unfold to_dict. rewrite Hoff, call_keywords_nil.
  apply call_problem_positional, (init_kwargs _ _ _ Hinit).
Qed.

Lemma to_dict_policy_on (args : list value) (kw : pydict) (self : Problem)
  (with_traceback : value) (w : world) :
  __init__ args kw = Ok self ->
  truthy (if is_none with_traceback then VBool (WITH_TRACEBACK w)
          else with_traceback) = true ->
  dict_get "traceback" (kwargs self) = None ->
  to_dict responses int_of_str self with_traceback w =
  problem responses int_of_str
    (status self) (title self) (detail self) (type self) (instance self)
    (("traceback", VStr (format_exc w)) :: kwargs self).
Proof.
  intros Hinit Hon Hfresh. unfold to_dict.
  rewrite Hon, call_keywords_singleton. unfold dict_has. rewrite Hfresh.
  apply call_problem_positional. intros n Hn.
  cbn [dict_get].
  destruct (String.eqb_spec "traceback" n) as [<-|_].
  - exfalso. simpl in Hn. intuition discriminate.
  - now apply (init_kwargs _ _ _ Hinit).
Qed.

(** C8.  A [Problem] that stores an extension named ['traceback'] cannot
    be converted with the traceback on: the call passes the keyword
    [traceback] twice, which is a [TypeError]. *)
Theorem to_dict_stored_traceback (args : list value) (kw : pydict)
  (self : Problem) (with_traceback : value) (w : world) :
  __init__ args kw = Ok self ->
  dict_get "traceback" (kwargs self) <> None ->
  truthy (if is_none with_traceback then VBool (WITH_TRACEBACK w)
          else with_traceback) = true ->
  to_dict responses int_of_str self with_traceback w = Raise TypeError.
Proof.
  intros _ Hstored Hon. unfold to_dict.
  rewrite Hon, call_keywords_singleton. unfold dict_has.
  destruct (dict_get "traceback" (kwargs self)); [reflexivity | congruence].
Qed.

(** C9.  The text of a constructed [Problem] is the text of
    [to_dict(with_traceback=False)], for [__str__] and [__repr__] alike;
    it is the same in every world, whatever the traceback flag and the
    pending trace text; and the mapping it renders is the normalization
    of the stored fields, with a ['traceback'] entry only if one was
    stored as an extension. *)
Theorem str_without_traceback (args : list value) (kw : pydict)
  (self : Problem) (w : world) :
  dict_wf kw ->
  __init__ args kw = Ok self ->
  __str__ responses int_of_str repr_str self w =
    (d ← to_dict responses int_of_str self (VBool false) w;
     Ok (str_dict repr_str d)) /\
  __repr__ responses int_of_str repr_str self w =
    __str__ responses int_of_str repr_str self w /\
  (forall w' : world,
     __str__ responses int_of_str repr_str self w' =
     __str__ responses int_of_str repr_str self w) /\
  to_dict responses int_of_str self (VBool false) w =
    problem responses int_of_str
      (status self) (title self) (detail self) (type self) (instance self)
      (kwargs self) /\
  (forall d,
     to_dict responses int_of_str self (VBool false) w = Ok d ->
     dict_get "traceback" d = dict_get "traceback" (kwargs self)).
Proof.
  intros Hwf Hinit.
  assert (Hoff : forall w0,
            to_dict responses int_of_str self (VBool false) w0 =
            problem responses int_of_str
              (status self) (title self) (detail self) (type self)
              (instance self) (kwargs self))
    by (intros w0; now apply (to_dict_policy_off args kw)).
  split; [reflexivity|]. split; [reflexivity|].
  split; [|split].
  - intros w'. unfold __str__. now rewrite !Hoff.
  - apply Hoff.
  - intros d Hd. rewrite Hoff in Hd.
    destruct (dict_get "traceback" (kwargs self)) as [v|] eqn:Hk.
    + eapply problem_get_ext; [|exact Hd|exact Hk].
      now apply (init_kwargs _ _ _ Hinit).
    + now rewrite (problem_get_std _ _ _ _ _ _ _ _ Hd Hk).
Qed.

(** ** The response envelope *)

(** The loop over the header names computes [has_content_type_key]. *)
Lemma content_type_loop (names : list string) (b : bool) :
  fold_left
    (fun has_content_type header =>
       if String.eqb (lower header) "content-type" then true
       else has_content_type) names b =
  b || existsb (fun header => String.eqb (lower header) "content-type") names.
Proof.
  revert b. induction names as [|n names IH]; intros b; simpl.
  - now rewrite orb_false_r.
  - rewrite IH. destruct (String.eqb (lower n) "content-type"), b; reflexivity.
Qed.

Lemma no_content_type_key (d : pydict) :
  has_content_type_key d = false -> dict_get "Content-Type" d = None.
Proof.
  unfold has_content_type_key.
  induction d as [|[k0 v0] d IH]; [reflexivity|].
  cbn [dict_keys fmap list_fmap existsb dict_get fst].
  intros H. apply orb_false_elim in H as [Hk Hd].
  destruct (String.eqb_spec k0 "Content-Type") as [->|_].
  - discriminate Hk.
  - apply IH, Hd.
Qed.

Lemma dict_set_fresh (k : string) (v : value) (d : pydict) :
  dict_get k d = None -> dict_set k v d = d ++ [(k, v)].
Proof.
  induction d as [|[k0 v0] d IH]; simpl; [reflexivity|].
  destruct (String.eqb k0 k); [discriminate|].
  intros H. now rewrite IH.
Qed.

Lemma heap_get_Some (l : loc) (h : heap) (d : pydict) :
  h !! l = Some d -> heap_get l h = d.
Proof. unfold heap_get. now intros ->. Qed.

Lemma heap_get_nonempty (l : loc) (h : heap) (p : string * value)
  (d : pydict) :
  heap_get l h = p :: d -> h !! l = Some (p :: d).
Proof.
  unfold heap_get. destruct (h !! l); simpl; [congruence | discriminate].
Qed.

Lemma heap_set_last (h : heap) (x y : pydict) :
  heap_set (length h) x (h ++ [y]) = h ++ [x].
Proof.
  unfold heap_set. induction h as [|d h IH]; simpl; [reflexivity|].
  now rewrite IH.
Qed.

Lemma heap_get_last (h : heap) (x : pydict) :
  heap_get (length h) (h ++ [x]) = x.
Proof.
  unfold heap_get. induction h as [|d h IH]; simpl; [reflexivity | exact IH].
Qed.

(** What a returning call did: the body was normalized and serialized,
    the status was copied, and the headers are either the caller's
    non-empty dictionary, written to in place when it lacks a content
    type, or a new dictionary holding the default content type. *)
Lemma problem_http_response_inv (status title detail type instance : value)
  (hdrs : option loc) (kwargs : pydict) (w : world) (h h' : heap)
  (env : envelope) :
  problem_http_response responses int_of_str
    status title detail type instance hdrs kwargs w h = (Ok env, h') ->
  (exists b,
     call_problem responses int_of_str
       [status; title; detail; type; instance] kwargs = Ok b /\
     SERIALIZE_METHOD w b = Ok (body env)) /\
  statusCode env = status /\
  ((exists l d,
      hdrs = Some l /\ h !! l = Some d /\ d <> [] /\ headers env = l /\
      h' = if has_content_type_key d then h
           else <[l := d ++ [("Content-Type",
                              VStr "application/problem+json")]]> h)
   \/
   (supplied_headers hdrs h = [] /\ headers env = length h /\
    h' = h ++ [[("Content-Type", VStr "application/problem+json")]])).
Proof.
  unfold problem_http_response. rewrite call_keywords_nil.
  cbn [mbind result_bind].
  destruct (call_problem responses int_of_str
              [status; title; detail; type; instance] kwargs) as [b|e];
    [|discriminate].
  assert (Hnew :
    (let '(headers0, h0) := heap_alloc [] h in
     let has_content_type :=
       fold_left
         (fun has_content_type header =>
            if String.eqb (lower header) "content-type" then true
            else has_content_type)
         (dict_keys (heap_get headers0 h0)) false in
     let h1 :=
       if negb has_content_type
       then heap_set headers0
              (dict_set "Content-Type" (VStr "application/problem+json")
                 (heap_get headers0 h0)) h0
       else h0 in
     match SERIALIZE_METHOD w b with
     | Raise e => (Raise e, h1)
     | Ok text =>
         (Ok {| statusCode := status; body := text; headers := headers0 |},
          h1)
     end) = (Ok env, h') ->
    (exists b0, Ok b = Ok b0 /\ SERIALIZE_METHOD w b0 = Ok (body env)) /\
    statusCode env = status /\ headers env = length h /\
    h' = h ++ [[("Content-Type", VStr "application/problem+json")]]).
  { unfold heap_alloc. rewrite heap_get_last. cbn.
    rewrite heap_set_last.
    destruct (SERIALIZE_METHOD w b) as [text|e] eqn:Hser; [|discriminate].
    intros [= <- <-]. cbn. repeat split; eauto. }
  destruct hdrs as [l|]; [destruct (heap_get l h) as [|p d] eqn:Hget|].
  - intros H. apply Hnew in H as (Hb & Hs & Hh & Hh'). simpl. rewrite Hget.
    auto 10.
  - clear Hnew. rewrite Hget, content_type_loop. cbn [orb].
    apply heap_get_nonempty in Hget.
    assert (Hne : p :: d <> []) by discriminate.
    remember (p :: d) as d0 eqn:Hd0. clear Hd0 p d.
    fold (has_content_type_key d0).
    destruct (SERIALIZE_METHOD w b) as [text|e] eqn:Hser; [|discriminate].
    intros H. injection H as <- <-. cbn [body statusCode headers].
    split; [eauto|]. split; [reflexivity|]. left.
    exists l, d0. repeat split; [exact Hget | exact Hne |].
    destruct (has_content_type_key d0) eqn:Hct; cbn [negb];
      [reflexivity|].
    unfold heap_set. f_equal.
    apply dict_set_fresh, no_content_type_key, Hct.
  - intros H. apply Hnew in H as (Hb & Hs & Hh & Hh'). simpl. auto 10.
Qed.

(** The headers of the envelope, read from the store after the call. *)
Lemma problem_http_response_headers
  (status title detail type instance : value)
  (hdrs : option loc) (kwargs : pydict) (w : world) (h h' : heap)
  (env : envelope) :
  problem_http_response responses int_of_str
    status title detail type instance hdrs kwargs w h = (Ok env, h') ->
  heap_get (headers env) h' =
  if has_content_type_key (supplied_headers hdrs h)
  then supplied_headers hdrs h
  else supplied_headers hdrs h
         ++ [("Content-Type", VStr "application/problem+json")].
Proof.
  intros H. apply problem_http_response_inv in H as (_ & _ & Hh).
  destruct Hh as [(l & d & -> & Hl & _ & -> & ->)|(Hs & -> & ->)].
  - simpl. rewrite (heap_get_Some _ _ _ Hl).
    destruct (has_content_type_key d); [now apply heap_get_Some|].
    apply heap_get_Some, list_lookup_insert_eq.
    now apply lookup_lt_Some in Hl.
  - rewrite Hs, heap_get_last. reflexivity.
Qed.

(** C5, as amended.  The returned headers hold the entry
    "Content-Type": "application/problem+json" exactly when no supplied
    header name is a spelling of "content-type" or the caller supplied
    that very entry.  When such a name is supplied the headers are
    returned as they were; otherwise the default entry is added after
    them; every supplied entry is an entry of the result. *)
Theorem problem_http_response_content_type
  (status title detail type instance : value)
  (hdrs : option loc) (kwargs : pydict) (w : world) (h h' : heap)
  (env : envelope) :
  problem_http_response responses int_of_str
    status title detail type instance hdrs kwargs w h = (Ok env, h') ->
  let supplied := supplied_headers hdrs h in
  let returned := heap_get (headers env) h' in
  (dict_get "Content-Type" returned = Some (VStr "application/problem+json")
   <-> has_content_type_key supplied = false \/
       dict_get "Content-Type" supplied
         = Some (VStr "application/problem+json")) /\
  (has_content_type_key supplied = true -> returned = supplied) /\
  (has_content_type_key supplied = false ->
   returned = supplied ++ [("Content-Type",
                            VStr "application/problem+json")]) /\
  (forall k v, dict_get k supplied = Some v -> dict_get k returned = Some v).
Proof.
  intros H supplied returned.
  pose proof (problem_http_response_headers _ _ _ _ _ _ _ _ _ _ _ H) as Hr.
  fold supplied returned in Hr. rewrite Hr. clear Hr H returned.
  destruct (has_content_type_key supplied) eqn:Hct.
  - repeat split; try discriminate; auto.
    intros [?|?]; [discriminate | assumption].
  - pose proof (no_content_type_key _ Hct) as Hno.
    repeat split; try discriminate; auto.
    + rewrite dict_get_app, Hno. reflexivity.
    + intros k v Hk. now rewrite dict_get_app, Hk.
Qed.

(** C6.  The status code of the envelope is the status argument as it was
    passed, while the body is the serialized normalization, in which a
    truthy status appears as its integer form; and the call returns
    whenever normalization and serialization do.  (The extensions name
    no standard field, as the binding of keywords ensures.) *)
Theorem problem_http_response_status_code
  (status title detail type instance : value)
  (hdrs : option loc) (kwargs : pydict) (w : world) (h : heap) :
  (forall n, In n problem_params -> dict_get n kwargs = None) ->
  (forall env h',
     problem_http_response responses int_of_str
       status title detail type instance hdrs kwargs w h = (Ok env, h') ->
     statusCode env = status /\
     exists b,
       problem responses int_of_str
         status title detail type instance kwargs = Ok b /\
       SERIALIZE_METHOD w b = Ok (body env) /\
       (truthy status = true ->
        exists n, py_int int_of_str status = Ok n /\
                  dict_get "status" b = Some (VInt n))) /\
  (forall b text,
     problem responses int_of_str
       status title detail type instance kwargs = Ok b ->
     SERIALIZE_METHOD w b = Ok text ->
     exists env h',
       problem_http_response responses int_of_str
         status title detail type instance hdrs kwargs w h = (Ok env, h') /\
       statusCode env = status /\ body env = text).
Proof.
  intros Hfree. split.
  - intros env h' H.
    apply problem_http_response_inv in H as ((b & Hb & Hser) & Hs & _).
    rewrite call_problem_positional in Hb by exact Hfree.
    split; [exact Hs|]. exists b. repeat split; [exact Hb | exact Hser |].
    intros Ht.
    rewrite (problem_get_std _ _ _ _ _ _ _ "status" Hb
               (Hfree "status" ltac:(simpl; tauto))).
    rewrite problem_shape, Ht in Hb. simpl. rewrite Ht.
    destruct (py_int int_of_str status) as [n|e]; [eauto | discriminate].
  - intros b text Hb Hser. unfold problem_http_response.
    rewrite call_keywords_nil. cbn [mbind result_bind].
    rewrite call_problem_positional by exact Hfree. rewrite Hb.
    destruct hdrs as [l|]; [destruct (heap_get l h)|];
      cbv zeta beta iota delta [heap_alloc]; rewrite Hser;
      eexists; eexists; (split; [reflexivity|]); split; reflexivity.
Qed.


End NormalizerFacts.

(** ** Closed instances *)

Ltac solve_dict_wf :=
  unfold dict_wf; simpl;
  repeat (apply NoDup_cons_2;
          [rewrite list_elem_of_In; simpl; intuition discriminate|]);
  apply NoDup_nil_2.

Ltac solve_free :=
  let n := fresh "n" in
  let Hn := fresh "Hn" in
  intros n Hn; simpl in Hn;
  repeat (destruct Hn as [<-|Hn]; [reflexivity|]); destruct Hn.

(** C1, the input that refutes the first wording:
    [problem(status=404, foo=None)].  The title was not supplied, yet the
    result has the key ['title']; and the key ['foo'] maps to [None]. *)
Lemma problem_falsy_fields_counterexample :
  exists out,
    problem http_responses decimal_int
      (VInt 404) VNone VNone VNone VNone [("foo", VNone)] = Ok out /\
    ~ falsy_fields_absent
        [("status", VInt 404); ("title", VNone); ("detail", VNone);
         ("type", VNone); ("instance", VNone)] out /\
    ~ no_null_value out.
Proof.
  eexists. split; [reflexivity|]. split.
  - intros H. specialize (H "title" VNone). simpl in H.
    discriminate H; auto.
  - intros H. now apply (H "foo").
Qed.

Lemma problem_falsy_fields_witness :
  let out := [("status", VInt 404); ("title", VStr "Not Found");
              ("foo", VNone)] in
  dict_get "detail" out = None /\
  dict_get "title" out = Some (VStr "Not Found") /\
  (forall k, dict_get k out = Some VNone ->
             dict_get k [("foo", VNone)] = Some VNone).
Proof.
  intros out.
  destruct (problem_falsy_fields http_responses decimal_int
              (VInt 404) VNone VNone VNone VNone [("foo", VNone)] out)
    as (_ & Hd & _ & _ & Ht & Hn);
    [solve_dict_wf | solve_free | reflexivity |].
  split; [exact (Hd eq_refl)|]. split; [exact (Ht eq_refl) | exact Hn].
Defined.

(** The examples of the title derivation: 404 gives "Not Found", and 599,
    missing from the table, gives no title. *)
Lemma problem_title_examples :
  problem http_responses decimal_int (VInt 404) VNone VNone VNone VNone []
  = Ok [("status", VInt 404); ("title", VStr "Not Found")] /\
  problem http_responses decimal_int (VInt 599) VNone VNone VNone VNone []
  = Ok [("status", VInt 599)].
Proof. split; reflexivity. Qed.



(** Through a call, the keyword [title] is bound to the parameter. *)
Lemma call_problem_title_keyword :
  call_problem http_responses decimal_int
    [] [("status", VInt 404); ("title", VStr "X")]
  = Ok [("status", VInt 404); ("title", VStr "X")].
Proof. reflexivity. Qed.


(** C5, the input that refutes the first wording: the caller supplies the
    default entry itself.  The returned headers hold it although a
    supplied name is a spelling of "content-type". *)
Lemma content_type_iff_counterexample :
  let h := [[("Content-Type", VStr "application/problem+json")]] in
  exists env h',
    problem_http_response http_responses decimal_int
      (VInt 400) VNone VNone VNone VNone (Some 0%nat) [] sample_world h
    = (Ok env, h') /\
    ~ default_entry_iff_no_content_type
        (supplied_headers (Some 0%nat) h) (heap_get (headers env) h').
Proof.
  intros h. eexists. eexists. split; [reflexivity|].
  intros [Hto _]. discriminate (Hto eq_refl).
Qed.

(** The header examples: a foreign header gains the default content type
    after it, a lower-case content type is left alone. *)
Lemma problem_http_response_content_type_witness :
  heap_get 0 [[("X-Trace", VStr "1");
               ("Content-Type", VStr "application/problem+json")]]
  = [("X-Trace", VStr "1")]
      ++ [("Content-Type", VStr "application/problem+json")]
  /\
  heap_get 0 [[("content-type", VStr "text/plain")]]
  = [("content-type", VStr "text/plain")].
Proof.
  split.
  - exact (proj1 (proj2 (proj2
      (problem_http_response_content_type http_responses decimal_int
         (VInt 400) VNone VNone VNone VNone (Some 0%nat) [] sample_world
         [[("X-Trace", VStr "1")]]
         [[("X-Trace", VStr "1");
           ("Content-Type", VStr "application/problem+json")]]
         {| statusCode := VInt 400;
            body := VStr "{'status': 400, 'title': 'Bad Request'}";
            headers := 0%nat |}
         eq_refl))) eq_refl).
  - exact (proj1 (proj2
      (problem_http_response_content_type http_responses decimal_int
         (VInt 400) VNone VNone VNone VNone (Some 0%nat) [] sample_world
         [[("content-type", VStr "text/plain")]]
         [[("content-type", VStr "text/plain")]]
         {| statusCode := VInt 400;
            body := VStr "{'status': 400, 'title': 'Bad Request'}";
            headers := 0%nat |}
         eq_refl)) eq_refl).
Defined.

(** The status ["404"] as text: the status code is the text, the body
    holds the integer; the status [None] is returned as [None]. *)
Lemma problem_http_response_status_code_witness :
  (exists env h',
     problem_http_response http_responses decimal_int
       (VStr "404") VNone VNone VNone VNone None [] sample_world []
     = (Ok env, h') /\
     statusCode env = VStr "404" /\ body env = VStr "{'status': 404}") /\
  (exists env h',
     problem_http_response http_responses decimal_int
       VNone VNone VNone VNone VNone None [] sample_world []
     = (Ok env, h') /\
     statusCode env = VNone /\ body env = VStr "{}").
Proof.
  split.
  - exact (proj2 (problem_http_response_status_code
             http_responses decimal_int
             (VStr "404") VNone VNone VNone VNone None [] sample_world []
             ltac:(solve_free))
             [("status", VInt 404)] (VStr "{'status': 404}")
             eq_refl eq_refl).
  - exact (proj2 (problem_http_response_status_code
             http_responses decimal_int
             VNone VNone VNone VNone VNone None [] sample_world []
             ltac:(solve_free))
             [] (VStr "{}") eq_refl eq_refl).
Defined.

(** [Problem(status=500, traceback="x").to_dict()] after
    [activate_traceback()]. *)
Lemma to_dict_stored_traceback_witness :
  to_dict http_responses decimal_int
    {| status := VInt 500; title := VNone; detail := VNone; type := VNone;
       instance := VNone; kwargs := [("traceback", VStr "x")] |}
    VNone (activate_traceback sample_world)
  = Raise TypeError.
Proof.
  apply (to_dict_stored_traceback http_responses decimal_int
           [VInt 500] [("traceback", VStr "x")]);
    [reflexivity | discriminate | reflexivity].
Defined.

(** With the policy off the same object converts, and the stored
    extension is the ['traceback'] of the result. *)
Lemma to_dict_policy_off_stored :
  to_dict http_responses decimal_int
    {| status := VInt 500; title := VNone; detail := VNone; type := VNone;
       instance := VNone; kwargs := [("traceback", VStr "x")] |}
    VNone sample_world
  = Ok [("status", VInt 500); ("title", VStr "Internal Server Error");
        ("traceback", VStr "x")].
Proof. reflexivity. Qed.

(** [str(Problem(status=500, a="x"))] with the traceback policy on. *)
Lemma str_without_traceback_witness :
  let self :=
    {| status := VInt 500; title := VNone; detail := VNone; type := VNone;
       instance := VNone; kwargs := [("a", VStr "x")] |} in
  __str__ http_responses decimal_int simple_repr self
    (activate_traceback sample_world)
  = __str__ http_responses decimal_int simple_repr self sample_world /\
  __str__ http_responses decimal_int simple_repr self sample_world
  = Ok "{'status': 500, 'title': 'Internal Server Error', 'a': 'x'}".
Proof.
  intros self. split; [|reflexivity].
  exact (proj1 (proj2 (proj2
    (str_without_traceback http_responses decimal_int simple_repr
       [VInt 500] [("a", VStr "x")] self sample_world
       ltac:(solve_dict_wf) eq_refl)))
    (activate_traceback sample_world)).
Defined.


(** With no headers the store only grows by the new dictionary. *)
Lemma problem_http_response_fresh_headers :
  problem_http_response http_responses decimal_int
    (VInt 400) VNone VNone VNone VNone (Some 0%nat) [] sample_world [[]]
  = (Ok {| statusCode := VInt 400;
           body := VStr "{'status': 400, 'title': 'Bad Request'}";
           headers := 1%nat |},
     [[]; [("Content-Type", VStr "application/problem+json")]]).
Proof. reflexivity. Qed.

(** ** Further properties of the normalizer *)

Section Coverage.

Variable responses : table.
Variable int_of_str : string -> option Z.

(** X1.  When the extensions name no standard field, each of detail, type
    and instance is a key of the result exactly when its value is truthy,
    and then holds the text form of the value. *)
Theorem problem_text_fields (status title detail type instance : value)
  (kwargs out : pydict) :
  (forall n, In n problem_params -> dict_get n kwargs = None) ->
  problem responses int_of_str status title detail type instance kwargs
    = Ok out ->
  dict_get "detail" out =
    (if truthy detail then Some (VStr (py_str detail)) else None) /\
  dict_get "type" out =
    (if truthy type then Some (VStr (py_str type)) else None) /\
  dict_get "instance" out =
    (if truthy instance then Some (VStr (py_str instance)) else None).
Proof.
  intros Hfree Hp. unfold problem_params in Hfree. simpl in Hfree.
  rewrite (problem_get_std _ _ _ _ _ _ _ _ _ "detail" Hp) by auto 10.
  rewrite (problem_get_std _ _ _ _ _ _ _ _ _ "type" Hp) by auto 10.
  rewrite (problem_get_std _ _ _ _ _ _ _ _ _ "instance" Hp) by auto 10.
  simpl. unfold text_of.
  now destruct (truthy detail), (truthy type), (truthy instance).
Qed.

(** X2.  Through a call an extension cannot stand for a standard field:
    whatever the positional values and keywords, the status of the result
    is an integer, its title, detail, type and instance are text, and
    every other key holds what the keywords gave it. *)
Theorem call_problem_field_types (args : list value) (kw out : pydict) :
  dict_wf kw ->
  call_problem responses int_of_str args kw = Ok out ->
  (forall v, dict_get "status" out = Some v -> exists n, v = VInt n) /\
  (forall k v,
     In k ["title"; "detail"; "type"; "instance"] ->
     dict_get k out = Some v -> exists s, v = VStr s) /\
  (forall k, ~ In k problem_params -> dict_get k out = dict_get k kw).
Proof.
  intros Hwf Hc. unfold call_problem in Hc.
  destruct (bind_params problem_params args kw) as [[vs rest]|] eqn:Hb;
    [|discriminate].
  cbn [mbind result_bind fst snd] in Hc.
  destruct vs as [|st [|ti [|de [|ty [|ins [|? ?]]]]]]; try discriminate.
  pose proof (bind_params_rest _ _ _ _ Hb) as Hrest.
  pose proof (bind_params_keys _ _ _ _ Hb Hwf) as Hwf'.
  cbn [snd] in Hrest, Hwf'.
  assert (Hfree : forall n, In n problem_params -> dict_get n rest = None)
    by (intros n Hn; now apply Hrest).
  unfold problem_params in Hfree. simpl in Hfree.
  split; [|split].
  - intros v. rewrite (problem_get_std _ _ _ _ _ _ _ _ _ "status" Hc)
      by auto 10.
    simpl. destruct (truthy st); [|discriminate].
    destruct (py_int int_of_str st); [|discriminate].
    intros [= <-]. eauto.
  - intros k v Hk. simpl in Hk.
    destruct Hk as [<-|[<-|[<-|[<-|[]]]]];
      rewrite (problem_get_std _ _ _ _ _ _ _ _ _ _ Hc) by auto 10; simpl.
    + destruct (derived_title responses st ti); [|discriminate].
      intros [= <-]. eauto.
    + destruct (text_of de); [|discriminate]. intros [= <-]. eauto.
    + destruct (text_of ty); [|discriminate]. intros [= <-]. eauto.
    + destruct (text_of ins); [|discriminate]. intros [= <-]. eauto.
  - intros k Hk. destruct (Hrest k) as [_ Hsame].
    rewrite <- (Hsame Hk).
    destruct (dict_get k rest) as [v|] eqn:Hg.
    + exact (problem_get_ext _ _ _ _ _ _ _ _ _ _ _ Hwf' Hc Hg).
    + rewrite (problem_get_std _ _ _ _ _ _ _ _ _ _ Hc Hg).
      unfold problem_params in Hk. simpl in Hk.
      repeat match goal with
        | |- context [String.eqb ?a k] =>
            destruct (String.eqb_spec a k); [exfalso; subst; tauto|]
        end.
      reflexivity.
Qed.

(** X3.  The reason table is consulted with the status as it was passed,
    while the status entry holds its integer form.  So a status given as
    text never gets a derived title, even when the same number given as
    an integer does: both calls store the same status, and only the second
    has the reason phrase. *)
Theorem problem_text_status_untitled (s : string) (z : Z)
  (title detail type instance : value) (kwargs out_text out_int : pydict) :
  dict_get "status" kwargs = None ->
  dict_get "title" kwargs = None ->
  truthy title = false ->
  s <> EmptyString ->
  z <> 0%Z ->
  int_of_str s = Some z ->
  problem responses int_of_str (VStr s) title detail type instance kwargs
    = Ok out_text ->
  problem responses int_of_str (VInt z) title detail type instance kwargs
    = Ok out_int ->
  dict_get "status" out_text = Some (VInt z) /\
  dict_get "status" out_int = Some (VInt z) /\
  dict_get "title" out_text = None /\
  dict_get "title" out_int = VStr <$> table_get z responses.
Proof.
  intros Hs Ht Hti Hne Hz Hint Htext Hnum.
  assert (Hts : truthy (VStr s) = true).
  { simpl. destruct (String.eqb_spec s EmptyString); [contradiction|easy]. }
  assert (Htz : truthy (VInt z) = true).
  { simpl. destruct (Z.eqb_spec z 0); [contradiction|easy]. }
  rewrite (problem_get_std _ _ _ _ _ _ _ _ _ "status" Htext Hs).
  rewrite (problem_get_std _ _ _ _ _ _ _ _ _ "status" Hnum Hs).
  rewrite (problem_get_std _ _ _ _ _ _ _ _ _ "title" Htext Ht).
  rewrite (problem_get_std _ _ _ _ _ _ _ _ _ "title" Hnum Ht).
  cbn [String.eqb]. simpl String.eqb.
  unfold derived_title. rewrite Hts, Htz, Hti.
  cbn [py_int responses_get]. rewrite Hint. auto.
Qed.

(** *** Layout of the result *)

Lemma dict_update_fresh (d other : pydict) :
  dict_wf other ->
  (forall k, In k (dict_keys other) -> dict_get k d = None) ->
  dict_update d other = d ++ other.
Proof.
  unfold dict_update, dict_wf. revert d.
  induction other as [|[k v] o IH]; intros d Hwf Hfree; simpl.
  - now rewrite app_nil_r.
  - apply NoDup_cons in Hwf as [Hni Hnd]. rewrite list_elem_of_In in Hni.
    rewrite dict_set_fresh by (apply Hfree; now left).
    rewrite IH; [now rewrite <- app_assoc | exact Hnd |].
    intros k' Hk'. rewrite dict_get_app, (Hfree k') by now right.
    cbn [dict_get].
    destruct (String.eqb_spec k k') as [->|]; [contradiction | reflexivity].
Qed.

Lemma standard_fields_keys (n : Z) (status title detail type instance : value) :
  sublist (dict_keys (standard_fields responses n
                        status title detail type instance))
          problem_params.
Proof.
  unfold standard_fields, entry, problem_params.
  destruct (truthy status), (derived_title responses status title),
    (text_of detail), (text_of type), (text_of instance); simpl;
    repeat constructor.
Qed.

Lemma problem_params_NoDup : NoDup problem_params.
Proof.
  unfold problem_params.
  repeat (apply NoDup_cons_2;
          [rewrite list_elem_of_In; simpl; intuition discriminate|]).
  apply NoDup_nil_2.
Qed.

Lemma standard_fields_lookup (n : Z)
  (status title detail type instance : value) (k : string) :
  dict_get k (standard_fields responses n status title detail type instance)
  = if String.eqb "status" k then
      (if truthy status then Some (VInt n) else None)
    else if String.eqb "title" k then
      VStr <$> derived_title responses status title
    else if String.eqb "detail" k then VStr <$> text_of detail
    else if String.eqb "type" k then VStr <$> text_of type
    else if String.eqb "instance" k then VStr <$> text_of instance
    else None.
Proof.
  unfold standard_fields.
  rewrite (standard_fields_get _ _ _ _ _ k
             (status_entry_only (truthy status) n)).
  destruct (String.eqb_spec "status" k) as [<-|]; [|reflexivity].
  now destruct (truthy status).
Qed.

Lemma standard_fields_only_params (n : Z)
  (status title detail type instance : value) (k : string) :
  In k (dict_keys (standard_fields responses n
                     status title detail type instance)) ->
  In k problem_params.
Proof.
  intros Hk. apply list_elem_of_In.
  apply (sublist_subseteq _ _
           (standard_fields_keys n status title detail type instance)).
  apply list_elem_of_In. exact Hk.
Qed.

(** The result of [problem] in terms of [standard_fields]. *)
Lemma problem_standard_fields (status title detail type instance : value)
  (kwargs out : pydict) :
  problem responses int_of_str status title detail type instance kwargs
    = Ok out ->
  exists n,
    (truthy status = true -> py_int int_of_str status = Ok n) /\
    out = dict_update
            (standard_fields responses n status title detail type instance)
            kwargs.
Proof.
  rewrite problem_shape. intros Hp.
  destruct (truthy status) eqn:Hs.
  - destruct (py_int int_of_str status) as [n|]; [|discriminate].
    injection Hp as <-. exists n. split; [reflexivity|].
    unfold standard_fields. now rewrite Hs.
  - injection Hp as <-. exists 0%Z. split; [discriminate|].
    unfold standard_fields. now rewrite Hs.
Qed.

(** X4.  When the extensions are a dictionary that names no standard
    field, the result lists the standard fields that have a value first,
    in the order status, title, detail, type, instance, and then the
    extensions in the order they were given; no key occurs twice. *)
Theorem problem_layout (status title detail type instance : value)
  (kwargs out : pydict) :
  dict_wf kwargs ->
  (forall n, In n problem_params -> dict_get n kwargs = None) ->
  problem responses int_of_str status title detail type instance kwargs
    = Ok out ->
  exists n,
    (truthy status = true -> py_int int_of_str status = Ok n) /\
    out = standard_fields responses n status title detail type instance
            ++ kwargs /\
    sublist (dict_keys (standard_fields responses n
                          status title detail type instance))
            problem_params /\
    dict_wf out.
Proof.
  intros Hwf Hfree Hp.
  destruct (problem_standard_fields _ _ _ _ _ _ _ Hp) as (n & Hn & ->).
  exists n. split; [exact Hn|].
  assert (Hdis : forall k, In k (dict_keys kwargs) ->
            dict_get k (standard_fields responses n
                          status title detail type instance) = None).
  { intros k Hk. apply dict_get_None. intros Hstd.
    apply standard_fields_only_params in Hstd.
    apply Hfree, dict_get_None in Hstd. contradiction. }
  rewrite (dict_update_fresh _ _ Hwf Hdis).
  split; [reflexivity|]. split; [apply standard_fields_keys|].
  unfold dict_wf, dict_keys. rewrite fmap_app. apply NoDup_app.
  split; [|split].
  - eapply sublist_NoDup; [|apply standard_fields_keys].
    apply problem_params_NoDup.
  - intros k Hstd Hkw. rewrite list_elem_of_In in Hstd, Hkw.
    apply Hdis, dict_get_None in Hkw. contradiction.
  - exact Hwf.
Qed.

(** *** Normalizing a normalized mapping *)

Lemma dict_del_fresh (n : string) (d : pydict) :
  dict_get n d = None -> dict_del n d = d.
Proof.
  induction d as [|[k v] d IH]; simpl; [reflexivity|].
  destruct (String.eqb k n); [discriminate|].
  intros H. now rewrite IH.
Qed.

Lemma pretty_N_go_nonempty (x : N) (s : string) :
  s <> EmptyString -> pretty_N_go x s <> EmptyString.
Proof.
  revert s. induction (N.lt_wf_0 x) as [x _ IH]; intros s Hs.
  destruct (decide (x = 0%N)) as [->|Hx].
  - now rewrite pretty_N_go_0.
  - rewrite pretty_N_go_step by lia.
    apply IH; [apply N.div_lt; lia | discriminate].
Qed.

Lemma pretty_Z_nonempty (z : Z) : pretty z <> EmptyString.
Proof.
  destruct z as [|p|p]; [discriminate| |discriminate].
  unfold pretty, pretty_Z, pretty, pretty_positive, pretty, pretty_N.
  destruct (decide (N.pos p = 0%N)); [discriminate|].
  rewrite pretty_N_go_step by lia.
  apply pretty_N_go_nonempty. discriminate.
Qed.

(** The text form of a truthy value is not empty, so it is truthy. *)
Lemma py_str_truthy (v : value) :
  truthy v = true -> truthy (VStr (py_str v)) = true.
Proof.
  destruct v as [|[|]|z|s]; simpl; try discriminate; try reflexivity.
  - intros _. pose proof (pretty_Z_nonempty z) as H.
    destruct (String.eqb_spec (pretty z) EmptyString); [contradiction|easy].
  - easy.
Qed.

(** Passing a result back as keywords binds each standard field to its
    entry and leaves the extensions. *)
Lemma bind_params_standard_fields (n : Z)
  (status title detail type instance : value) (kwargs : pydict) :
  (forall k, In k problem_params -> dict_get k kwargs = None) ->
  bind_params problem_params []
    (standard_fields responses n status title detail type instance
       ++ kwargs)
  = Ok ([ (if truthy status then VInt n else VNone);
          default VNone (VStr <$> derived_title responses status title);
          default VNone (VStr <$> text_of detail);
          default VNone (VStr <$> text_of type);
          default VNone (VStr <$> text_of instance) ],
        kwargs).
Proof.
  intros Hfree. unfold problem_params in Hfree. simpl in Hfree.
  assert (H1 : dict_get "status" kwargs = None) by auto 10.
  assert (H2 : dict_get "title" kwargs = None) by auto 10.
  assert (H3 : dict_get "detail" kwargs = None) by auto 10.
  assert (H4 : dict_get "type" kwargs = None) by auto 10.
  assert (H5 : dict_get "instance" kwargs = None) by auto 10.
  clear Hfree.
  unfold standard_fields, entry, problem_params.
  destruct (truthy status), (derived_title responses status title),
    (text_of detail), (text_of type), (text_of instance);
    cbn -[dict_get dict_del];
    cbn [dict_get dict_del app String.eqb Ascii.eqb Bool.eqb];
    rewrite ?(dict_del_fresh _ _ H1), ?(dict_del_fresh _ _ H2),
      ?(dict_del_fresh _ _ H3), ?(dict_del_fresh _ _ H4),
      ?(dict_del_fresh _ _ H5), ?H1, ?H2, ?H3, ?H4, ?H5;
    reflexivity.
Qed.

Lemma text_of_renormalized (v : value) :
  text_of (default VNone (VStr <$> text_of v)) = text_of v.
Proof.
  unfold text_of. destruct (truthy v) eqn:Hv; [|reflexivity].
  change (default VNone (VStr <$> Some (py_str v))) with (VStr (py_str v)).
  now rewrite (py_str_truthy _ Hv).
Qed.

(** The status entry stands for the status in every test [problem]
    makes, unless the status was text. *)
Lemma status_renormalized (n : Z) (status : value) :
  (forall s, status <> VStr s) ->
  (truthy status = true -> py_int int_of_str status = Ok n) ->
  let status' := if truthy status then VInt n else VNone in
  truthy status' = truthy status /\
  (truthy status = true ->
   py_int int_of_str status' = Ok n /\
   responses_get responses status' = responses_get responses status).
Proof.
  intros Htext Hn.
  destruct status as [|[|]|z|s]; cbn in *;
    try (split; [reflexivity | discriminate]).
  - specialize (Hn eq_refl). injection Hn as <-. auto.
  - destruct (Z.eqb_spec z 0) as [->|Hz]; cbn in *.
    + split; [reflexivity | discriminate].
    + specialize (Hn eq_refl). injection Hn as <-. cbn.
      destruct (Z.eqb_spec z 0); [contradiction|]. auto.
  - now destruct (Htext s).
Qed.

Lemma derived_title_renormalized (n : Z) (status title : value) :
  (forall s, status <> VStr s) ->
  (truthy status = true -> py_int int_of_str status = Ok n) ->
  derived_title responses
    (if truthy status then VInt n else VNone)
    (default VNone (VStr <$> derived_title responses status title))
  = derived_title responses status title.
Proof.
  intros Htext Hn.
  destruct (status_renormalized n status Htext Hn) as [Ht Hr].
  unfold derived_title. rewrite Ht.
  destruct (truthy title) eqn:Hti.
  - change (default VNone (VStr <$> Some (py_str title)))
      with (VStr (py_str title)).
    now rewrite (py_str_truthy _ Hti).
  - destruct (truthy status) eqn:Hs.
    + destruct (Hr eq_refl) as [_ ->].
      destruct (responses_get responses status) as [p|]; [|reflexivity].
      change (default VNone (VStr <$> Some p)) with (VStr p).
      now destruct (truthy (VStr p)).
    + reflexivity.
Qed.

(** X5.  Normalizing is idempotent on the documented status types: when
    the status is [None], a bool or an integer and the extensions are a
    dictionary that names no standard field, passing the result back to
    [problem] as keywords returns the same mapping. *)
Theorem problem_renormalize (status title detail type instance : value)
  (kwargs out : pydict) :
  dict_wf kwargs ->
  (forall n, In n problem_params -> dict_get n kwargs = None) ->
  (forall s, status <> VStr s) ->
  problem responses int_of_str status title detail type instance kwargs
    = Ok out ->
  call_problem responses int_of_str [] out = Ok out.
Proof.
  intros Hwf Hfree Htext Hp.
  destruct (problem_standard_fields _ _ _ _ _ _ _ Hp) as (n & Hn & ->).
  assert (Hdis : forall k, In k (dict_keys kwargs) ->
            dict_get k (standard_fields responses n
                          status title detail type instance) = None).
  { intros k Hk. apply dict_get_None. intros Hstd.
    apply standard_fields_only_params in Hstd.
    apply Hfree, dict_get_None in Hstd. contradiction. }
  rewrite (dict_update_fresh _ _ Hwf Hdis) at 1.
  unfold call_problem. rewrite (bind_params_standard_fields _ _ _ _ _ _ _ Hfree).
  cbn [mbind result_bind fst snd]. rewrite problem_shape.
  destruct (status_renormalized n status Htext Hn) as [Ht Hr].
  rewrite Ht, !text_of_renormalized,
    (derived_title_renormalized n status title Htext Hn).
  unfold standard_fields.
  destruct (truthy status) eqn:Hs.
  - destruct (Hr eq_refl) as [-> _]. reflexivity.
  - reflexivity.
Qed.

(** *** Construction followed by conversion *)




(** [problem] on extensions that are a dictionary and name no standard
    field. *)
Lemma problem_with_fresh_extensions (status title detail type instance : value)
  (kwargs : pydict) :
  dict_wf kwargs ->
  (forall n, In n problem_params -> dict_get n kwargs = None) ->
  problem responses int_of_str status title detail type instance kwargs =
  match (if truthy status then py_int int_of_str status else Ok 0%Z) with
  | Raise e => Raise e
  | Ok n =>
      Ok (standard_fields responses n status title detail type instance
            ++ kwargs)
  end.
Proof.
  intros Hwf Hfree. rewrite problem_shape.
  destruct (if truthy status then py_int int_of_str status else Ok 0%Z)
    as [n|e]; [|reflexivity].
  fold (standard_fields responses n status title detail type instance).
  rewrite dict_update_fresh; [reflexivity | exact Hwf |].
  intros k Hk. apply dict_get_None. intros Hstd.
  apply standard_fields_only_params in Hstd.
  apply Hfree, dict_get_None in Hstd. contradiction.
Qed.

(** X8.  For a [Problem] constructed without an extension named
    ['traceback'], turning the traceback on adds exactly one entry: the
    result is the one without traceback, with the pending trace text under
    ['traceback'] placed after the standard fields and before the stored
    extensions; and both conversions raise the same error or none. *)
Theorem to_dict_traceback_entry (args : list value) (kw : pydict)
  (self : Problem) (w : world) :
  dict_wf kw ->
  dict_get "traceback" kw = None ->
  __init__ args kw = Ok self ->
  match to_dict responses int_of_str self (VBool false) w,
        to_dict responses int_of_str self (VBool true) w with
  | Ok d_off, Ok d_on =>
      exists std,
        d_off = std ++ kwargs self /\
        d_on = std ++ ("traceback", VStr (format_exc w)) :: kwargs self /\
        dict_get "traceback" std = None
  | Raise e_off, Raise e_on => e_off = e_on
  | _, _ => False
  end.
Proof.
  intros Hwf Htb Hinit.
  destruct (init_kwargs _ _ _ Hinit) as (Hfree & Hsame & Hwf').
  specialize (Hwf' Hwf).
  assert (Hk : ~ In "traceback" problem_params)
    by (simpl; intuition discriminate).
  assert (Hfresh : dict_get "traceback" (kwargs self) = None)
    by (rewrite (Hsame _ Hk); exact Htb).
  rewrite (to_dict_policy_off _ _ args kw) by easy.
  rewrite (to_dict_policy_on _ _ args kw) by easy.
  rewrite (problem_with_fresh_extensions _ _ _ _ _ _ Hwf' Hfree).
  rewrite problem_with_fresh_extensions.
  - destruct (if truthy (status self)
              then py_int int_of_str (status self) else Ok 0%Z) as [n|e];
      [|reflexivity].
    eexists. split; [reflexivity|]. split; [reflexivity|].
    apply dict_get_None. intros Hstd.
    apply standard_fields_only_params in Hstd. contradiction.
  - unfold dict_wf. cbn [dict_keys fmap list_fmap fst].
    apply NoDup_cons_2; [|exact Hwf'].
    rewrite list_elem_of_In. now apply dict_get_None.
  - intros n Hn. cbn [dict_get].
    destruct (String.eqb_spec "traceback" n) as [<-|]; [contradiction|].
    now apply Hfree.
Qed.

(** X9.  The traceback policy is read only when the argument is [None]:
    after [activate_traceback] an unspecified argument converts like
    [True], after [deactivate_traceback] like [False]; any other argument
    decides by its truth value whatever the policy; and replacing the
    serializer does not touch the conversion to a mapping. *)
Theorem to_dict_flag_resolution (self : Problem) (with_traceback : value)
  (w : world) :
  to_dict responses int_of_str self VNone (activate_traceback w)
    = to_dict responses int_of_str self (VBool true) w /\
  to_dict responses int_of_str self VNone (deactivate_traceback w)
    = to_dict responses int_of_str self (VBool false) w /\
  (with_traceback <> VNone ->
   to_dict responses int_of_str self with_traceback (activate_traceback w)
     = to_dict responses int_of_str self (VBool (truthy with_traceback)) w /\
   to_dict responses int_of_str self with_traceback (deactivate_traceback w)
     = to_dict responses int_of_str self (VBool (truthy with_traceback)) w) /\
  (forall method,
     to_dict responses int_of_str self with_traceback
       (set_serialize_function method w)
     = to_dict responses int_of_str self with_traceback w).
Proof.
  split; [reflexivity|]. split; [reflexivity|]. split; [|reflexivity].
  intros Hne. unfold to_dict.
  destruct with_traceback as [|b|z|s]; [contradiction|..];
    cbn [is_none truthy activate_traceback deactivate_traceback format_exc];
    split; reflexivity.
Qed.

(** *** The envelope *)

(** Without headers, the call allocates the dictionary of the default
    content type and serializes the normalized body. *)
Lemma problem_http_response_no_headers
  (status title detail type instance : value)
  (kwargs : pydict) (w : world) (h : heap) :
  problem_http_response responses int_of_str
    status title detail type instance None kwargs w h =
  match call_problem responses int_of_str
          [status; title; detail; type; instance] kwargs with
  | Raise e => (Raise e, h)
  | Ok b =>
      match SERIALIZE_METHOD w b with
      | Raise e =>
          (Raise e,
           h ++ [[("Content-Type", VStr "application/problem+json")]])
      | Ok text =>
          (Ok {| statusCode := status; body := text; headers := length h |},
           h ++ [[("Content-Type", VStr "application/problem+json")]])
      end
  end.
Proof.
  unfold problem_http_response. rewrite call_keywords_nil.
  cbn [mbind result_bind].
  destruct (call_problem responses int_of_str
              [status; title; detail; type; instance] kwargs) as [b|e];
    [|reflexivity].
  unfold heap_alloc. rewrite heap_get_last. cbn. rewrite heap_set_last.
  reflexivity.
Qed.

(** Five positional values and keywords that name no parameter: the
    headers parameter takes its default. *)
Lemma call_problem_http_response_positional
  (status title detail type instance : value)
  (kw : pydict) (w : world) (h : heap) :
  (forall n, In n problem_http_response_params -> dict_get n kw = None) ->
  call_problem_http_response responses int_of_str
    [status; title; detail; type; instance] kw w h =
  problem_http_response responses int_of_str
    status title detail type instance None kw w h.
Proof.
  intros Hfree. unfold problem_http_response_params in Hfree.
  simpl in Hfree.
  unfold call_problem_http_response, problem_http_response_params.
  cbn [bind_params]. unfold dict_has.
  rewrite !Hfree by auto 10. cbn [mbind result_bind].
  rewrite (dict_del_fresh "headers" kw) by auto 10.
  reflexivity.
Qed.

(** X10.  The envelope of a [Problem] constructed without extensions
    named ['headers'] is built from its mapping: [to_http_response]
    raises what [to_dict] raises with the same argument, and otherwise
    serializes the mapping [to_dict] returns, copies the stored status as
    the status code, and refers to a new dictionary that holds the
    default content type alone. *)
Theorem to_http_response_of_to_dict (args : list value) (kw : pydict)
  (self : Problem) (with_traceback : value) (w : world) (h : heap) :
  __init__ args kw = Ok self ->
  dict_get "headers" kw = None ->
  to_http_response responses int_of_str self with_traceback w h =
  match to_dict responses int_of_str self with_traceback w with
  | Raise e => (Raise e, h)
  | Ok d =>
      match SERIALIZE_METHOD w d with
      | Raise e =>
          (Raise e,
           h ++ [[("Content-Type", VStr "application/problem+json")]])
      | Ok text =>
          (Ok {| statusCode := status self; body := text;
                 headers := length h |},
           h ++ [[("Content-Type", VStr "application/problem+json")]])
      end
  end.
Proof.
  intros Hinit Hh.
  destruct (init_kwargs _ _ _ Hinit) as (Hfree & Hsame & _).
  assert (Hhk : dict_get "headers" (kwargs self) = None).
  { rewrite Hsame; [exact Hh|]. simpl. intuition discriminate. }
  assert (Hfree6 : forall n, In n problem_http_response_params ->
            dict_get n (kwargs self) = None).
  { intros n Hn. unfold problem_http_response_params in Hn. simpl in Hn.
    unfold problem_params in Hfree. simpl in Hfree.
    destruct Hn as [<-|[<-|[<-|[<-|[<-|[<-|[]]]]]]]; auto 10. }
  unfold to_http_response, to_dict.
  destruct (truthy (if is_none with_traceback
                    then VBool (WITH_TRACEBACK w) else with_traceback)).
  - rewrite call_keywords_singleton.
    destruct (dict_has "traceback" (kwargs self)); [reflexivity|].
    cbn [mbind result_bind].
    rewrite call_problem_http_response_positional.
    + apply problem_http_response_no_headers.
    + intros n Hn. cbn [dict_get].
      destruct (String.eqb_spec "traceback" n) as [<-|_].
      * exfalso. simpl in Hn. intuition discriminate.
      * now apply Hfree6.
  - rewrite call_keywords_nil. cbn [mbind result_bind].
    rewrite call_problem_http_response_positional by exact Hfree6.
    apply problem_http_response_no_headers.
Qed.

(** X11.  A falsy extension named ['headers'] is taken by
    [to_http_response] as the headers argument: the conversion to a
    mapping keeps it as an extension, while the envelope is the one of
    the other extensions alone, with new default headers. *)
Theorem to_http_response_headers_extension (args : list value) (kw : pydict)
  (self : Problem) (v : value) (w : world) (h : heap) :
  dict_wf kw ->
  __init__ args kw = Ok self ->
  dict_get "headers" kw = Some v ->
  truthy v = false ->
  (forall d,
     to_dict responses int_of_str self (VBool false) w = Ok d ->
     dict_get "headers" d = Some v) /\
  to_http_response responses int_of_str self (VBool false) w h =
  problem_http_response responses int_of_str
    (status self) (title self) (detail self) (type self) (instance self)
    None (dict_del "headers" (kwargs self)) w h.
Proof.
  intros Hwf Hinit Hh Hv.
  destruct (init_kwargs _ _ _ Hinit) as (Hfree & Hsame & Hwf').
  assert (Hhk : dict_get "headers" (kwargs self) = Some v).
  { rewrite Hsame; [exact Hh|]. simpl. intuition discriminate. }
  split.
  - intros d Hd. rewrite (to_dict_policy_off _ _ args kw) in Hd by easy.
    exact (problem_get_ext _ _ _ _ _ _ _ _ _ _ _ (Hwf' Hwf) Hd Hhk).
  - unfold problem_params in Hfree. simpl in Hfree.
    unfold to_http_response. cbn [is_none truthy].
    rewrite call_keywords_nil.
    unfold call_problem_http_response, problem_http_response_params.
    cbn [bind_params]. unfold dict_has.
    rewrite !Hfree by auto 10. rewrite Hhk.
    cbn [mbind result_bind default fst snd]. unfold id. now rewrite Hv.
Qed.

Lemma has_content_type_key_default (d : pydict) (v : value) :
  has_content_type_key (d ++ [("Content-Type", v)]) = true.
Proof.
  unfold has_content_type_key, dict_keys.
  rewrite fmap_app, existsb_app. apply orb_true_r.
Qed.

(** X12.  An exception leaves the headers as far as the call got: when
    the normalization raises, the store is untouched; when the
    serializer raises, its error is passed on and a non-empty caller
    dictionary without content type has already received the default
    entry.  (The extensions name no standard field.) *)
Theorem problem_http_response_errors
  (status title detail type instance : value)
  (hdrs : option loc) (kwargs : pydict) (w : world) (h : heap) :
  (forall n, In n problem_params -> dict_get n kwargs = None) ->
  (forall e,
     problem responses int_of_str status title detail type instance kwargs
       = Raise e ->
     problem_http_response responses int_of_str
       status title detail type instance hdrs kwargs w h = (Raise e, h)) /\
  (forall b e l d,
     problem responses int_of_str status title detail type instance kwargs
       = Ok b ->
     SERIALIZE_METHOD w b = Raise e ->
     hdrs = Some l -> h !! l = Some d -> d <> [] ->
     problem_http_response responses int_of_str
       status title detail type instance hdrs kwargs w h
     = (Raise e,
        if has_content_type_key d then h
        else <[l := d ++ [("Content-Type",
                           VStr "application/problem+json")]]> h)).
Proof.
  intros Hfree. split.
  - intros e Hp. unfold problem_http_response.
    rewrite call_keywords_nil. cbn [mbind result_bind].
    now rewrite call_problem_positional, Hp.
  - intros b e l d Hp Hser -> Hl Hne. unfold problem_http_response.
    rewrite call_keywords_nil. cbn [mbind result_bind].
    rewrite call_problem_positional, Hp by exact Hfree.
    rewrite (heap_get_Some _ _ _ Hl).
    destruct d as [|p d]; [contradiction|].
    cbv beta iota zeta. rewrite (heap_get_Some _ _ _ Hl).
    remember (p :: d) as d0 eqn:Hd0.
    rewrite content_type_loop. cbn [orb].
    fold (has_content_type_key d0). rewrite Hser.
    destruct (has_content_type_key d0) eqn:Hct; cbn [negb]; [reflexivity|].
    unfold heap_set.
    now rewrite (dict_set_fresh _ _ _ (no_content_type_key _ Hct)).
Qed.

(** X13.  The headers of a returned envelope always have a name that is a
    spelling of "content-type". *)
Theorem problem_http_response_has_content_type
  (status title detail type instance : value)
  (hdrs : option loc) (kwargs : pydict) (w : world) (h h' : heap)
  (env : envelope) :
  problem_http_response responses int_of_str
    status title detail type instance hdrs kwargs w h = (Ok env, h') ->
  has_content_type_key (heap_get (headers env) h') = true.
Proof.
  intros H.
  rewrite (problem_http_response_headers _ _ _ _ _ _ _ _ _ _ _ _ _ H).
  destruct (has_content_type_key (supplied_headers hdrs h)) eqn:Hct;
    [exact Hct | apply has_content_type_key_default].
Qed.

(** X14.  A headers dictionary can be used again: once a call has
    returned with the caller's non-empty dictionary, any later call with
    that dictionary, whatever its fields, extensions and serializer,
    returns it again and writes nothing to the store. *)
Theorem problem_http_response_headers_stable
  (status title detail type instance : value)
  (status2 title2 detail2 type2 instance2 : value)
  (l : loc) (d : pydict) (kwargs kwargs2 : pydict) (w w2 : world)
  (h h1 h2 : heap) (env1 env2 : envelope) :
  h !! l = Some d -> d <> [] ->
  problem_http_response responses int_of_str
    status title detail type instance (Some l) kwargs w h = (Ok env1, h1) ->
  problem_http_response responses int_of_str
    status2 title2 detail2 type2 instance2 (Some l) kwargs2 w2 h1
    = (Ok env2, h2) ->
  headers env1 = l /\ headers env2 = l /\ h2 = h1.
Proof.
  intros Hl Hne H1 H2.
  assert (Hret := problem_http_response_headers _ _ _ _ _ _ _ _ _ _ _ _ _ H1).
  apply problem_http_response_inv in H1 as (_ & _ & Hh1).
  destruct Hh1 as [(l0 & d0 & [= <-] & Hl0 & _ & He1 & Hh1)|(Hs & _ & _)].
  2:{ exfalso. simpl in Hs. rewrite (heap_get_Some _ _ _ Hl) in Hs.
      contradiction. }
  rewrite Hl in Hl0. injection Hl0 as <-.
  rewrite He1 in Hret. simpl in Hret. rewrite (heap_get_Some _ _ _ Hl) in Hret.
  assert (Hct1 : has_content_type_key (heap_get l h1) = true).
  { rewrite Hret. destruct (has_content_type_key d) eqn:Hct;
      [exact Hct | apply has_content_type_key_default]. }
  assert (Hne1 : heap_get l h1 <> []).
  { rewrite Hret. destruct (has_content_type_key d); [exact Hne|].
    destruct d; discriminate. }
  apply problem_http_response_inv in H2 as (_ & _ & Hh2).
  destruct Hh2 as [(l2 & d2 & [= <-] & Hl2 & _ & He2 & Hh2)|(Hs & _ & _)].
  - rewrite (heap_get_Some _ _ _ Hl2) in Hct1. rewrite Hct1 in Hh2.
    auto.
  - exfalso. simpl in Hs. contradiction.
Qed.

End Coverage.

(** ** Closed instances of the further properties *)

(** [problem(status=404, detail=7, type="", a=None)] *)
Lemma problem_text_fields_witness :
  let out := [("status", VInt 404); ("title", VStr "Not Found");
              ("detail", VStr "7"); ("a", VNone)] in
  dict_get "detail" out = Some (VStr "7") /\
  dict_get "type" out = None /\
  dict_get "instance" out = None.
Proof.
  exact (problem_text_fields http_responses decimal_int
           (VInt 404) VNone (VInt 7) (VStr EmptyString) VNone
           [("a", VNone)] _ ltac:(solve_free) eq_refl).
Defined.

(** [problem(True, detail=7, a=None)] *)
Lemma call_problem_field_types_witness :
  let out := [("status", VInt 1); ("detail", VStr "7"); ("a", VNone)] in
  (exists n, VInt 1 = VInt n) /\
  (exists s, VStr "7" = VStr s) /\
  dict_get "a" out = Some VNone.
Proof.
  intros out.
  destruct (call_problem_field_types http_responses decimal_int
              [VBool true] [("detail", VInt 7); ("a", VNone)] out
              ltac:(solve_dict_wf) eq_refl) as (Hs & Ht & Hother).
  split; [exact (Hs _ eq_refl)|]. split.
  - apply (Ht "detail"); [simpl; tauto | reflexivity].
  - apply (Hother "a"). simpl. intuition discriminate.
Defined.

(** [problem(status="404")] against [problem(status=404)] *)
Lemma problem_text_status_untitled_witness :
  dict_get "status" [("status", VInt 404)] = Some (VInt 404) /\
  dict_get "status" [("status", VInt 404); ("title", VStr "Not Found")]
    = Some (VInt 404) /\
  dict_get "title" [("status", VInt 404)] = None /\
  dict_get "title" [("status", VInt 404); ("title", VStr "Not Found")]
    = Some (VStr "Not Found").
Proof.
  exact (problem_text_status_untitled http_responses decimal_int
           "404" 404 VNone VNone VNone VNone [] _ _
           eq_refl eq_refl eq_refl ltac:(discriminate) ltac:(discriminate)
           eq_refl eq_refl eq_refl).
Defined.

(** [problem(status=404, instance="/e/1", b=1, a=2)] *)
Lemma problem_layout_witness :
  exists n,
    (truthy (VInt 404) = true -> py_int decimal_int (VInt 404) = Ok n) /\
    [("status", VInt 404); ("title", VStr "Not Found");
     ("instance", VStr "/e/1"); ("b", VInt 1); ("a", VInt 2)]
    = standard_fields http_responses n
        (VInt 404) VNone VNone VNone (VStr "/e/1")
        ++ [("b", VInt 1); ("a", VInt 2)] /\
    sublist (dict_keys (standard_fields http_responses n
                          (VInt 404) VNone VNone VNone (VStr "/e/1")))
            problem_params /\
    dict_wf [("status", VInt 404); ("title", VStr "Not Found");
             ("instance", VStr "/e/1"); ("b", VInt 1); ("a", VInt 2)].
Proof.
  exact (problem_layout http_responses decimal_int
           (VInt 404) VNone VNone VNone (VStr "/e/1")
           [("b", VInt 1); ("a", VInt 2)] _
           ltac:(solve_dict_wf) ltac:(solve_free) eq_refl).
Defined.

(** The result of [problem(status=True, detail=7, a="x")] passed back as
    keywords *)
Lemma problem_renormalize_witness :
  call_problem http_responses decimal_int []
    [("status", VInt 1); ("detail", VStr "7"); ("a", VStr "x")]
  = Ok [("status", VInt 1); ("detail", VStr "7"); ("a", VStr "x")].
Proof.
  exact (problem_renormalize http_responses decimal_int
           (VBool true) VNone (VInt 7) VNone VNone [("a", VStr "x")] _
           ltac:(solve_dict_wf) ltac:(solve_free)
           ltac:(discriminate) eq_refl).
Defined.



Lemma to_dict_traceback_entry_witness :
  exists std,
    [("status", VInt 404); ("title", VStr "T"); ("a", VInt 1)]
    = std ++ [("a", VInt 1)] /\
    [("status", VInt 404); ("title", VStr "T");
     ("traceback", VStr "NoneType: None"); ("a", VInt 1)]
    = std ++ ("traceback", VStr "NoneType: None") :: [("a", VInt 1)] /\
    dict_get "traceback" std = None.
Proof.
  exact (to_dict_traceback_entry http_responses decimal_int
           [VInt 404] [("title", VStr "T"); ("a", VInt 1)]
           {| status := VInt 404; title := VStr "T"; detail := VNone;
              type := VNone; instance := VNone; kwargs := [("a", VInt 1)] |}
           sample_world ltac:(solve_dict_wf) eq_refl eq_refl).
Defined.

(** [to_dict(with_traceback=0)] after [activate_traceback()] *)
Lemma to_dict_flag_resolution_witness :
  let self :=
    {| status := VInt 500; title := VNone; detail := VNone; type := VNone;
       instance := VNone; kwargs := [] |} in
  to_dict http_responses decimal_int self (VInt 0)
    (activate_traceback sample_world)
  = to_dict http_responses decimal_int self (VBool false) sample_world.
Proof.
  intros self.
  exact (proj1 (proj1 (proj2 (proj2
    (to_dict_flag_resolution http_responses decimal_int
       self (VInt 0) sample_world))) ltac:(discriminate))).
Defined.

(** [Problem(status="404", a=1).to_http_response()] on an empty store *)
Lemma to_http_response_of_to_dict_witness :
  to_http_response http_responses decimal_int
    {| status := VStr "404"; title := VNone; detail := VNone;
       type := VNone; instance := VNone; kwargs := [("a", VInt 1)] |}
    VNone sample_world []
  = (Ok {| statusCode := VStr "404";
           body := VStr "{'status': 404, 'a': 1}";
           headers := 0%nat |},
     [[("Content-Type", VStr "application/problem+json")]]).
Proof.
  exact (to_http_response_of_to_dict http_responses decimal_int
           [VStr "404"] [("a", VInt 1)] _ VNone sample_world []
           eq_refl eq_refl).
Defined.

(** [Problem(status=400, headers=None)]: the mapping has the key
    ['headers'], the body of the envelope has not. *)
Lemma to_http_response_headers_extension_witness :
  let self :=
    {| status := VInt 400; title := VNone; detail := VNone; type := VNone;
       instance := VNone; kwargs := [("headers", VNone)] |} in
  (forall d,
     to_dict http_responses decimal_int self (VBool false) sample_world
       = Ok d ->
     dict_get "headers" d = Some VNone) /\
  to_http_response http_responses decimal_int self (VBool false)
    sample_world []
  = (Ok {| statusCode := VInt 400;
           body := VStr "{'status': 400, 'title': 'Bad Request'}";
           headers := 0%nat |},
     [[("Content-Type", VStr "application/problem+json")]]).
Proof.
  intros self.
  exact (to_http_response_headers_extension http_responses decimal_int
           [VInt 400] [("headers", VNone)] self VNone sample_world []
           ltac:(solve_dict_wf) eq_refl eq_refl eq_refl).
Defined.

(** A serializer that raises, called with the headers [{"X-Trace": "1"}]:
    the error comes out and the dictionary has the default entry. *)
Lemma problem_http_response_errors_witness :
  let w := set_serialize_function
             (fun _ => Raise (Raised "TypeError")) sample_world in
  problem_http_response http_responses decimal_int
    (VInt 400) VNone VNone VNone VNone (Some 0%nat) [] w
    [[("X-Trace", VStr "1")]]
  = (Raise (Raised "TypeError"),
     [[("X-Trace", VStr "1");
       ("Content-Type", VStr "application/problem+json")]])
  /\
  problem_http_response http_responses decimal_int
    (VStr "nope") VNone VNone VNone VNone (Some 0%nat) [] w
    [[("X-Trace", VStr "1")]]
  = (Raise ValueError, [[("X-Trace", VStr "1")]]).
Proof.
  intros w. split.
  - exact (proj2 (problem_http_response_errors http_responses decimal_int
             (VInt 400) VNone VNone VNone VNone (Some 0%nat) [] w
             [[("X-Trace", VStr "1")]] ltac:(solve_free))
             _ (Raised "TypeError") 0%nat [("X-Trace", VStr "1")]
             eq_refl eq_refl eq_refl eq_refl ltac:(discriminate)).
  - exact (proj1 (problem_http_response_errors http_responses decimal_int
             (VStr "nope") VNone VNone VNone VNone (Some 0%nat) [] w
             [[("X-Trace", VStr "1")]] ltac:(solve_free))
             ValueError eq_refl).
Defined.

Lemma problem_http_response_has_content_type_witness :
  has_content_type_key
    (heap_get 0 [[("content-TYPE", VStr "text/plain")]]) = true.
Proof.
  exact (problem_http_response_has_content_type http_responses decimal_int
           (VInt 400) VNone VNone VNone VNone (Some 0%nat) [] sample_world
           [[("content-TYPE", VStr "text/plain")]]
           [[("content-TYPE", VStr "text/plain")]]
           {| statusCode := VInt 400;
              body := VStr "{'status': 400, 'title': 'Bad Request'}";
              headers := 0%nat |}
           eq_refl).
Defined.

(** Two calls with the same headers dictionary *)
Lemma problem_http_response_headers_stable_witness :
  let h1 := [[("X-Trace", VStr "1");
              ("Content-Type", VStr "application/problem+json")]] in
  0%nat = 0%nat /\ 0%nat = 0%nat /\ h1 = h1.
Proof.
  intros h1.
  exact (problem_http_response_headers_stable http_responses decimal_int
           (VInt 400) VNone VNone VNone VNone
           (VInt 404) VNone (VStr "gone") VNone VNone
           0%nat [("X-Trace", VStr "1")] [] [] sample_world sample_world
           [[("X-Trace", VStr "1")]] h1 h1
           {| statusCode := VInt 400;
              body := VStr "{'status': 400, 'title': 'Bad Request'}";
              headers := 0%nat |}
           {| statusCode := VInt 404;
              body :=
                VStr "{'status': 404, 'title': 'Not Found', 'detail': 'gone'}";
              headers := 0%nat |}
           eq_refl ltac:(discriminate) eq_refl eq_refl).
Defined.
